(** * peppa: a Slack self-service gateway

    A shallow embedding of the three Python modules of the repository

      - [bot/src/slack_bot/blocks.py]     (the action registry loader),
      - [bot/src/slack_bot/main.py]       (the two-step dialog and the job trigger),
      - [bot/src/slack_notifier/main.py]  (the completion notifier),

    and the properties of the specification proved about them.

    Python values that travel through the handlers are JSON documents; the
    effects of a handler (log lines, metrics, acknowledgements, calls to Slack,
    CodeBuild and Secrets Manager) are recorded, in program order, in a trace.
    The services answer through oracles that read the trace so far, so that a
    theorem quantified over the oracles holds whatever the services do.

    The Powertools decorators ([@tracer.capture_method],
    [@metrics.log_metrics]) and the passive handlers (mention, direct
    message, home tab) are left out: they take no part in the dialog. *)

From Stdlib Require Import PrimFloat.
From stdpp Require Import base strings list sorting pretty.

Set Warnings "-register-all".

(** ** Python values *)

(** What [json.load] builds and what Slack and Lambda hand to the handlers.
    A [dict] keeps its insertion order, so it is an association list (with
    unique keys, see [dict_set]). *)
Inductive json : Type :=
| JNull
| JBool (b : bool)
| JInt (n : Z)
| JFloat (f : float)
| JStr (s : string)
| JArr (items : list json)
| JObj (fields : list (string * json)).

Abbreviation dict V := (list (string * V)).

(** [d.get(k)] on the association list: the first (and only) binding. *)
Fixpoint dict_get {V} (k : string) (d : dict V) : option V :=
  match d with
  | [] => None
  | (k', v) :: d' => if decide (k = k') then Some v else dict_get k d'
  end.

(** [d[k] = v]: an existing key keeps its place and takes the new value, a
    new key goes last. *)
Fixpoint dict_set {V} (k : string) (v : V) (d : dict V) : dict V :=
  match d with
  | [] => [(k, v)]
  | (k', v') :: d' =>
      if decide (k = k') then (k, v) :: d' else (k', v') :: dict_set k v d'
  end.

Definition dict_keys {V} (d : dict V) : list string := d.*1.

(** [k in d] *)
Definition dict_has {V} (k : string) (d : dict V) : bool :=
  bool_decide (is_Some (dict_get k d)).

(** [bool(v)]: [None], [False], zero, and the empty string, list and dict are
    false. A float is false when it equals [0.0] (so is [-0.0]; [nan] is true). *)
Definition truthy (v : json) : bool :=
  match v with
  | JNull => false
  | JBool b => b
  | JInt n => negb (n =? 0)%Z
  | JFloat f => negb (PrimFloat.eqb f PrimFloat.zero)
  | JStr s => negb (String.eqb s "")
  | JArr items => match items with [] => false | _ => true end
  | JObj fields => match fields with [] => false | _ => true end
  end.

(** [v == "literal"]: only a string compares equal to a string. *)
Definition py_eq_str (v : json) (lit : string) : bool :=
  match v with
  | JStr s => String.eqb s lit
  | _ => false
  end.

(** ** Exceptions *)

Inductive exn : Type :=
| KeyError (key : json)                       (* d[k] with k missing *)
| TypeError (obj : json)                      (* obj[k], hash(obj) or json.loads(obj) on an unfit object *)
| AttributeError (obj : json) (attr : string) (* obj.get, obj.copy, obj.strip, None.chat_postMessage *)
| JSONDecodeError (msg : string)
| OSError (msg : string)
| ClientError (msg : string)                  (* botocore *)
| SlackApiError (msg : string) (response : json)
| Exception (msg : string).                   (* any other subclass of Exception *)

Inductive outcome (A : Type) : Type :=
| Return (a : A)
| Raise (e : exn).
Arguments Return {A} a.
Arguments Raise {A} e.

Definition is_ClientError (e : exn) : bool :=
  match e with ClientError _ => true | _ => false end.

Definition is_SlackApiError (e : exn) : bool :=
  match e with SlackApiError _ _ => true | _ => false end.

Definition is_JSONDecodeError (e : exn) : bool :=
  match e with JSONDecodeError _ => true | _ => false end.

(** [v[k]] with a string key. *)
Definition py_getitem (v : json) (k : string) : outcome json :=
  match v with
  | JObj d => match dict_get k d with
              | Some x => Return x
              | None => Raise (KeyError (JStr k))
              end
  | _ => Raise (TypeError v)
  end.

(** [v.get(k, default)]: only a dict has the method. *)
Definition py_get (v : json) (k : string) (dflt : json) : outcome json :=
  match v with
  | JObj d => Return (default dflt (dict_get k d))
  | _ => Raise (AttributeError v "get")
  end.

(** [v in d] for a dict with string keys: a list or a dict cannot be hashed,
    and no other value equals a string. *)
Definition py_contains {V} (d : dict V) (v : json) : outcome bool :=
  match v with
  | JStr s => Return (dict_has s d)
  | JArr _ | JObj _ => Raise (TypeError v)
  | _ => Return false
  end.

(** [d[v]] for a dict with string keys. *)
Definition py_lookup {V} (d : dict V) (v : json) : outcome V :=
  match v with
  | JStr s => match dict_get s d with
              | Some x => Return x
              | None => Raise (KeyError v)
              end
  | JArr _ | JObj _ => Raise (TypeError v)
  | _ => Raise (KeyError v)
  end.

(** [sorted(names)]: strings compare by code point, which on the UTF-8
    bytes of a Rocq string is the byte order [String.le]. *)
Definition sorted (names : list string) : list string :=
  merge_sort String.le names.

(** [s.startswith((".", "_"))] *)
Definition hidden (s : string) : bool :=
  String.prefix "." s || String.prefix "_" s.

(** The line feed of a Python string literal. *)
Definition nl : string := String (Ascii.ascii_of_nat 10) EmptyString.

(** *** [s.strip()]

    Without an argument it takes off, at both ends, the characters for which
    [str.isspace] holds. They are listed here by their UTF-8 bytes: the
    ASCII ones (tab to carriage return, the four separators U+001C to
    U+001F, the space) and the others (U+0085, U+00A0, U+1680, U+2000 to
    U+200A, U+2028, U+2029, U+202F, U+205F, U+3000). *)
Definition of_bytes (bytes : list nat) : string :=
  foldr (fun b s => String (Ascii.ascii_of_nat b) s) EmptyString bytes.

Definition whitespace : list string :=
  of_bytes <$>
    [[9]; [10]; [11]; [12]; [13]; [28]; [29]; [30]; [31]; [32];
     [194; 133]; [194; 160]; [225; 154; 128];
     [226; 128; 128]; [226; 128; 129]; [226; 128; 130]; [226; 128; 131];
     [226; 128; 132]; [226; 128; 133]; [226; 128; 134]; [226; 128; 135];
     [226; 128; 136]; [226; 128; 137]; [226; 128; 138];
     [226; 128; 168]; [226; 128; 169]; [226; 128; 175]; [226; 129; 159];
     [227; 128; 128]].

(** [s] without its prefix [pre], when it has that prefix. *)
Fixpoint without_prefix (pre s : string) : option string :=
  match pre, s with
  | EmptyString, _ => Some s
  | String a pre', String b s' =>
      if Ascii.eqb a b then without_prefix pre' s' else None
  | String _ _, EmptyString => None
  end.

(** [s] without the one character of [chars] it starts with, if any. *)
Definition without_first (chars : list string) (s : string) : option string :=
  head (omap (fun c => without_prefix c s) chars).

(** Each turn takes at least one byte off, so [n] turns are enough for a
    string of [n] bytes. *)
Fixpoint lstrip_upto (n : nat) (chars : list string) (s : string) : string :=
  match n with
  | 0 => s
  | S n' =>
      match without_first chars s with
      | Some s' => lstrip_upto n' chars s'
      | None => s
      end
  end.

Definition py_lstrip (s : string) : string :=
  lstrip_upto (String.length s) whitespace s.

(** The right end is the left end of the reversed string, with the bytes of
    each character reversed too. *)
Definition py_rstrip (s : string) : string :=
  String.rev (lstrip_upto (String.length s) (String.rev <$> whitespace) (String.rev s)).

Definition py_strip (s : string) : string := py_rstrip (py_lstrip s).

(** ** The Python runtime

    Library functions the modules call and the repository does not define:
    the JSON codec, the text of [repr] and of interpreter-raised errors, and
    the constructor of the Slack client. Everything below is parametric in
    them. *)
Class Runtime : Type := {
  json_dumps : json -> string;            (* json.dumps *)
  json_loads : string -> outcome json;    (* json.loads / json.load on a text *)
  py_repr : json -> string;               (* repr(v) *)
  interp_text : exn -> string;            (* str(e) of a TypeError or AttributeError *)
  WebClient : json -> outcome json        (* slack_sdk's WebClient(token=...): the
                                             client, known by the token it holds *)
}.

Section Formatting.
Context {rt : Runtime}.

(** [f"{v}"]: [str(v)], which is [v] itself for a string and [repr(v)] for
    every other JSON value. *)
Definition fmt (v : json) : string :=
  match v with
  | JStr s => s
  | _ => py_repr v
  end.

(** [str(e)] *)
Definition str_exn (e : exn) : string :=
  match e with
  | KeyError k => py_repr k
  | TypeError _ | AttributeError _ _ => interp_text e
  | JSONDecodeError m | OSError m | ClientError m | Exception m => m
  | SlackApiError m _ => m
  end.

(** [json.loads(v)]: the argument must be a string. *)
Definition py_json_loads (v : json) : outcome json :=
  match v with
  | JStr s => json_loads s
  | _ => Raise (TypeError v)
  end.
End Formatting.

(** ** Effects *)

Inductive level : Type := INFO | WARNING | ERROR.

(** The argument of Bolt's [ack]. *)
Inductive ack_response : Type :=
| AckEmpty                                   (* ack() *)
| AckErrors (errors : dict string)           (* ack(response_action="errors", errors=...) *)
| AckUpdate (view : json).                   (* ack(response_action="update", view=...) *)

Record env_var : Type := EnvVar {
  ev_name : string;
  ev_value : json;
  ev_type : string
}.

Inductive event : Type :=
| Log (lvl : level) (msg : string)
| LogException (lvl : level) (msg : string) (exc_info : exn)
| Metric (name : string)
| Metadata (key : string) (value : json)
| Ack (response : ack_response)
| ViewsOpen (trigger_id : json) (view : json)
| ChatPostMessage (channel : json) (thread_ts : option json) (text : json) (mrkdwn : bool)
| StartBuild (projectName : string) (environmentVariablesOverride : list env_var)
| GetSecretValue (SecretId : option string).

(** A process: the trace of what it has done, and its mutable globals. *)
Record proc (G : Type) : Type := Proc {
  trace : list event;
  globals : G
}.
Arguments Proc {G} trace globals.
Arguments trace {G} p.
Arguments globals {G} p.

(** Computations that read and write the process and may raise. *)
Definition M (G A : Type) : Type := proc G -> outcome A * proc G.

Definition ret {G A} (a : A) : M G A := fun p => (Return a, p).

Definition raise {G A} (e : exn) : M G A := fun p => (Raise e, p).

Definition bind {G A B} (m : M G A) (k : A -> M G B) : M G B :=
  fun p => match m p with
           | (Return a, p') => k a p'
           | (Raise e, p') => (Raise e, p')
           end.

(** [try: m / except Exception as e: h e]. The effects of [m] up to the
    raise stay. *)
Definition try_except {G A} (m : M G A) (h : exn -> M G A) : M G A :=
  fun p => match m p with
           | (Return a, p') => (Return a, p')
           | (Raise e, p') => h e p'
           end.

(** [try: m / except C as e: h e] for one exception class [C]. *)
Definition try_except_on {G A} (cls : exn -> bool) (m : M G A) (h : exn -> M G A) : M G A :=
  try_except m (fun e => if cls e then h e else raise e).

(** A pure step that may raise. *)
Definition lift {G A} (o : outcome A) : M G A := fun p => (o, p).

Definition emit {G} (ev : event) : M G unit :=
  fun p => (Return tt, Proc (trace p ++ [ev]) (globals p)).

(** A call to a service: the attempt is recorded, the service answers from
    what has happened before the call. *)
Definition call {G A} (ev : event) (oracle : list event -> outcome A) : M G A :=
  fun p => (oracle (trace p), Proc (trace p ++ [ev]) (globals p)).

Definition get_globals {G} : M G G := fun p => (Return (globals p), p).

Definition set_globals {G} (g : G) : M G unit :=
  fun p => (Return tt, Proc (trace p) g).

Declare Scope py_scope.
Delimit Scope py_scope with py.
Notation "x <- m ;; k" := (bind m (fun x => k))
  (at level 100, m at next level, right associativity) : py_scope.
Notation "m ;; k" := (bind m (fun _ => k))
  (at level 100, right associativity) : py_scope.
Open Scope py_scope.

Definition log {G} (lvl : level) (msg : string) : M G unit := emit (Log lvl msg).

(** [logger.error(msg, exc_info=True)]: the line, with the exception being
    handled and its traceback. *)
Definition log_exception {G} (msg : string) (e : exn) : M G unit :=
  emit (LogException ERROR msg e).

Definition add_metric {G} (name : string) : M G unit := emit (Metric name).

(** Unfold the monad down to pairs of an outcome and a process. *)
Ltac run :=
  cbv beta delta [bind ret raise lift emit log log_exception add_metric call try_except
                  try_except_on get_globals set_globals] in *;
  cbn beta iota zeta in *; cbn [trace globals fst snd] in *.

(** Split on the answer of the service the goal is waiting for. *)
Ltac case_oracle :=
  match goal with
  | |- context [match ?o with Return _ => _ | Raise _ => _ end] =>
      lazymatch o with
      | context [match _ with _ => _ end] => fail
      | _ => destruct o
      end
  end.

(** Membership in a list that is written out. *)
Ltac listed :=
  solve [repeat first [apply list_elem_of_here | apply list_elem_of_further]].

(** Bring a trace built by successive [emit]s into the form [t ++ [e1; ...]]. *)
Ltac traces := rewrite <- ?app_assoc; cbn [app].

(** What a run of [m] from [p] has added to the trace. *)
Definition emitted {G A} (m : M G A) (p : proc G) : list event :=
  drop (length (trace p)) (trace (m p).2).

Definition is_delivery (ev : event) : bool :=
  match ev with ChatPostMessage _ _ _ _ => true | _ => false end.

Definition is_job_trigger (ev : event) : bool :=
  match ev with StartBuild _ _ => true | _ => false end.

(** ** [slack_notifier/main.py] *)

Module SlackNotifier.

(** What the handler returns to Lambda. *)
Record lambda_response : Type := Response {
  statusCode : Z;
  body : string
}.

(** The services the notifier talks to, and its environment. A Slack
    client is known by the token it holds. *)
Record world : Type := World {
  env_SLACK_SECRET_TOKEN : option string;
  get_secret_value : list event -> option string -> outcome json;
  chat_postMessage :
    list event -> json -> json -> option json -> json -> outcome json
}.

(** The module global [_slack_client]: [None] until the first use. Building
    the client from the token does not call Slack, and may raise. *)
Abbreviation slack_client := (option json).

Section Notifier.
Context {rt : Runtime} (w : world).

Definition get_slack_client : M slack_client slack_client :=
  cached <- get_globals;;
  match cached with
  | None =>
      let secret_name := env_SLACK_SECRET_TOKEN w in
      try_except_on is_ClientError
        (response <- call (GetSecretValue secret_name)
                          (fun t => get_secret_value w t secret_name);;
         secret_string <- lift (py_getitem response "SecretString");;
         secret_data <- lift (py_json_loads secret_string);;
         bot_token <- lift (py_getitem secret_data "slack_bot_token");;
         client <- lift (WebClient bot_token);;
         set_globals (Some client);;
         log INFO "Slack client initialized")
        (fun e =>
           log ERROR ("Failed to get Slack credentials: " +:+ str_exn e);;
           raise e)
  | Some _ => ret tt
  end;;
  get_globals.

(** [client.chat_postMessage(...)]; the method does not exist on [None]. *)
Definition post (client : slack_client) (channel : json)
    (thread_ts : option json) (text : json) : M slack_client json :=
  match client with
  | Some token =>
      call (ChatPostMessage channel thread_ts text true)
           (fun t => chat_postMessage w t token channel thread_ts text)
  | None => raise (AttributeError JNull "chat_postMessage")
  end.

(** The [except SlackApiError as e] clause of both senders. [e.response] is
    a [SlackResponse]: indexing it is [data.get(key)]. *)
Definition on_slack_api_error {A} (e : exn) : M slack_client A :=
  match e with
  | SlackApiError _ resp =>
      err <- lift (py_get resp "error" JNull);;
      log ERROR ("Slack API error: " +:+ fmt err);;
      add_metric "SlackApiError";;
      raise e
  | _ => raise e
  end.

Definition send_direct_message (user_id message : json) : M slack_client json :=
  client <- get_slack_client;;
  try_except_on is_SlackApiError
    (response <- post client user_id None message;;
     log INFO ("Message sent to user " +:+ fmt user_id);;
     add_metric "DirectMessageSent";;
     ret response)
    on_slack_api_error.

Definition send_thread_reply (channel thread_ts message : json) : M slack_client json :=
  client <- get_slack_client;;
  try_except_on is_SlackApiError
    (response <- post client channel (Some thread_ts) message;;
     log INFO ("Thread reply sent to channel " +:+ fmt channel);;
     add_metric "ThreadReplySent";;
     ret response)
    on_slack_api_error.

Definition bad_request (error : string) : lambda_response :=
  Response 400 (json_dumps (JObj [("error", JStr error)])).

(** The tail of the [try] block, reached when a sender has returned. *)
Definition sent (response : json) : M slack_client lambda_response :=
  log INFO "Notification sent successfully";;
  ret (Response 200 (json_dumps (JObj [("message", JStr "Notification sent");
                                       ("response", response)]))).

Definition lambda_handler (event : json) : M slack_client lambda_response :=
  log INFO ("Processing notification: " +:+ json_dumps event);;
  try_except
    (notification_type <- lift (py_get event "notification_type" (JStr "direct-message"));;
     message <- lift (py_get event "message" (JStr ""));;
     if negb (truthy message) then
       log ERROR "No message provided";;
       ret (bad_request "Message is required")
     else if py_eq_str notification_type "direct-message" then
       user_id <- lift (py_get event "user_id" JNull);;
       if negb (truthy user_id) then
         log ERROR "No user_id provided for direct message";;
         ret (bad_request "user_id is required for direct messages")
       else
         response <- send_direct_message user_id message;;
         sent response
     else if py_eq_str notification_type "in-thread" then
       channel <- lift (py_get event "channel" JNull);;
       thread_ts <- lift (py_get event "thread_ts" JNull);;
       if negb (truthy channel) || negb (truthy thread_ts) then
         log ERROR "Missing channel or thread_ts for thread reply";;
         ret (bad_request "channel and thread_ts required for thread replies")
       else
         response <- send_thread_reply channel thread_ts message;;
         sent response
     else
       log ERROR ("Invalid notification type: " +:+ fmt notification_type);;
       ret (bad_request ("Invalid notification_type: " +:+ fmt notification_type)))
    (fun e =>
       log_exception ("Error sending notification: " +:+ str_exn e) e;;
       add_metric "NotificationError";;
       ret (Response 500 (json_dumps (JObj [("error", JStr (str_exn e))])))).

(** A rejected event: status 400, and two lines in the log. *)
Definition rejected (d : dict json) (p : proc slack_client)
    (error complaint : string) : outcome lambda_response * proc slack_client :=
  (Return (bad_request error),
   Proc (trace p ++ [Log INFO ("Processing notification: " +:+ json_dumps (JObj d));
                     Log ERROR complaint])
        (globals p)).
End Notifier.

End SlackNotifier.

(** ** Objects

    The bot process keeps the objects that are copied or assigned into, the
    form templates, in a heap: an object is known by its address, and two
    names for one address see each other's writes. Values nested in an object
    are kept in place: no code of the repository writes into them. *)

Abbreviation addr := nat.
Abbreviation heap := (list json).

(** A new object. *)
Definition alloc (obj : json) : M heap addr :=
  fun p => (Return (length (globals p)), Proc (trace p) (globals p ++ [obj])).

(** The object at an address. Addresses come from [alloc] only; for any
    other address the read fails. *)
Definition deref (a : addr) : M heap json :=
  fun p => match globals p !! a with
           | Some obj => (Return obj, p)
           | None => (Raise (Exception "no object at this address"), p)
           end.

(** [a.copy()]: a new dict or list with the same items. *)
Definition py_copy (a : addr) : M heap addr :=
  obj <- deref a;;
  match obj with
  | JObj _ | JArr _ => alloc obj
  | _ => raise (AttributeError obj "copy")
  end.

(** [a[k] = v] with a string key: an assignment into the object itself. *)
Definition py_setitem (a : addr) (k : string) (v : json) : M heap unit :=
  obj <- deref a;;
  match obj with
  | JObj d => fun p => (Return tt, Proc (trace p) (<[a := JObj (dict_set k v d)]> (globals p)))
  | _ => raise (TypeError obj)
  end.

(** ** [slack_bot/blocks.py] *)

Module Blocks.

(** [modal.json] as [open] and [json.load] find it: a text, or a file that
    cannot be opened or read. *)
Inductive file : Type :=
| Unreadable (e : exn)
| Text (content : string).

(** An entry of the actions directory, as the loop examines it. The two
    probes go to the file system with [stat]: a path that is not there
    answers [False], any other failure (a [PermissionError] below a
    directory that cannot be searched) is raised. *)
Record dir_entry : Type := DirEntry {
  name : string;
  is_dir : outcome bool;            (* action_path.is_dir() *)
  modal_exists : outcome bool;      (* (action_path / "modal.json").exists() *)
  modal_json : file                 (* what open and json.load find there *)
}.

(** The directory next to the module. *)
Record actions_fs : Type := ActionsFs {
  actions_dir : string;                  (* its path *)
  dir_exists : outcome bool;             (* actions_dir.exists() *)
  iterdir : outcome (list dir_entry)     (* actions_dir.iterdir() *)
}.

Section Loader.
Context {rt : Runtime} (fs : actions_fs).

Definition modal_file (e : dir_entry) : string :=
  actions_dir fs +:+ "/" +:+ name e +:+ "/modal.json".

(** [with open(modal_file, "r") as f: modal_data = json.load(f)] *)
Definition load_modal (f : file) : M heap addr :=
  match f with
  | Unreadable e => raise e
  | Text content => modal_data <- lift (json_loads content);; alloc modal_data
  end.

(** One turn of the loop over the directory. The two probes are outside
    the [try]: what they raise leaves the loop. *)
Definition load_action (actions : dict addr) (action_path : dir_entry)
    : M heap (dict addr) :=
  directory <- lift (is_dir action_path);;
  if negb directory || hidden (name action_path) then ret actions
  else
    found <- lift (modal_exists action_path);;
    if negb found then
      log WARNING ("No modal.json found for action: " +:+ name action_path);;
      ret actions
    else
      try_except
        (modal_data <- load_modal (modal_json action_path);;
         let actions := dict_set (name action_path) modal_data actions in
         log INFO ("Loaded action: " +:+ name action_path);;
         ret actions)
        (fun e =>
           if is_JSONDecodeError e then
             log ERROR ("Invalid JSON in " +:+ modal_file action_path +:+ ": " +:+ str_exn e);;
             ret actions
           else
             log ERROR ("Error loading action " +:+ name action_path +:+ ": " +:+ str_exn e);;
             ret actions).

(** What [open] and [json.load] make of the file. *)
Definition read_modal (f : file) : outcome json :=
  match f with
  | Unreadable e => Raise e
  | Text content => json_loads content
  end.

(** A candidate: a directory whose name is not hidden. *)
Definition candidate (e : dir_entry) : bool :=
  match is_dir e with
  | Return directory => directory && negb (hidden (name e))
  | Raise _ => false
  end.

(** What a probe of the entry raises, if one does: [is_dir] on every
    entry, [exists] on the document of a candidate. *)
Definition fault (e : dir_entry) : option exn :=
  match is_dir e with
  | Raise ex => Some ex
  | Return _ =>
      if candidate e then
        match modal_exists e with
        | Raise ex => Some ex
        | Return _ => None
        end
      else None
  end.

(** An entry that can be examined. *)
Definition examined (e : dir_entry) : Prop := fault e = None.

(** A candidate whose document is there and loads as [doc]. *)
Definition loadable (e : dir_entry) (doc : json) : Prop :=
  candidate e = true /\
  modal_exists e = Return true /\
  read_modal (modal_json e) = Return doc.

(** A candidate whose document is there and fails to load with [ex]. *)
Definition malformed (e : dir_entry) (ex : exn) : Prop :=
  candidate e = true /\
  modal_exists e = Return true /\
  read_modal (modal_json e) = Raise ex.

(** The line logged for a document that failed with [ex]. *)
Definition error_line (e : dir_entry) (ex : exn) : string :=
  if is_JSONDecodeError ex
  then "Invalid JSON in " +:+ modal_file e +:+ ": " +:+ str_exn ex
  else "Error loading action " +:+ name e +:+ ": " +:+ str_exn ex.

Fixpoint load_all (actions : dict addr) (entries : list dir_entry)
    : M heap (dict addr) :=
  match entries with
  | [] => ret actions
  | action_path :: rest =>
      actions <- load_action actions action_path;;
      load_all actions rest
  end.

Definition load_actions : M heap (dict addr) :=
  found <- lift (dir_exists fs);;
  if negb found then
    log WARNING ("Actions directory not found: " +:+ actions_dir fs);;
    ret []
  else
    entries <- lift (iterdir fs);;
    actions <- load_all [] entries;;
    log INFO ("Loaded " +:+ fmt (JInt (Z.of_nat (length actions))) +:+ " actions");;
    ret actions.
End Loader.

End Blocks.

(** ** [slack_bot/main.py] *)

Module SlackBot.

(** The registry [action_data] as the module imported it (each name bound
    to the address of its template), the environment, and the services. *)
Record world : Type := World {
  action_data : dict addr;
  env_BOT_NAME : option string;
  start_build : list event -> string -> list env_var -> outcome json;
  chat_postMessage : list event -> json -> json -> outcome json;
  views_open : list event -> json -> json -> outcome json
}.

Definition plain_text (text : string) : json :=
  JObj [("type", JStr "plain_text"); ("text", JStr text)].

Section Bot.
Context {rt : Runtime} (w : world).

(** [client.chat_postMessage(channel=..., text=...)] *)
Definition post (channel : json) (text : string) : M heap json :=
  call (ChatPostMessage channel None (JStr text) false)
       (fun t => chat_postMessage w t channel (JStr text)).

(** One entry of the select menu. *)
Definition menu_option (action_name : string) : json :=
  JObj [("text", plain_text action_name); ("value", JStr action_name)].

Definition menu_options : list json :=
  menu_option <$> sorted (dict_keys (action_data w)).

Definition modal_view : json :=
  JObj [
    ("type", JStr "modal");
    ("callback_id", JStr "initial_modal");
    ("title", plain_text "Senora Self-Service");
    ("submit", plain_text "Next");
    ("close", plain_text "Cancel");
    ("blocks", JArr [
       JObj [("type", JStr "section");
             ("text", JObj [("type", JStr "mrkdwn");
                            ("text", JStr "Select an action to perform:")])];
       JObj [("type", JStr "input");
             ("block_id", JStr "action_select_block");
             ("element", JObj [("type", JStr "static_select");
                               ("action_id", JStr "action_select");
                               ("placeholder", plain_text "Choose an action...");
                               ("options", JArr menu_options)]);
             ("label", plain_text "Action")]])].

Definition open_modal (trigger_id : json) : M heap unit :=
  call (ViewsOpen trigger_id modal_view)
       (fun t => views_open w t trigger_id modal_view);;
  ret tt.

Definition create_action_modal (action_name : json) : M heap addr :=
  template <- lift (py_lookup (action_data w) action_name);;
  action_modal <- py_copy template;;
  py_setitem action_modal "callback_id" (JStr "updated_modal");;
  py_setitem action_modal "private_metadata" action_name;;
  ret action_modal.

Definition project_name (action_name : json) : string :=
  default "senora" (env_BOT_NAME w) +:+ "-" +:+ fmt action_name.

Definition plaintext (name : string) (value : json) : env_var :=
  EnvVar name value "PLAINTEXT".

(** The [environmentVariablesOverride] of the call. *)
Definition overrides (request_body_text : string)
    (trigger_id user_id user_name : json) : list env_var :=
  [plaintext "REQUEST_BODY" (JStr request_body_text);
   plaintext "TRIGGER_ID" trigger_id;
   plaintext "USER_ID" user_id;
   plaintext "USER_NAME" user_name].

Definition execute_action (action_name request_body : json) : M heap json :=
  let project_name := project_name action_name in
  log INFO ("Starting CodeBuild project: " +:+ project_name);;
  try_except_on is_ClientError
    (let request_body_text := json_dumps request_body in
     trigger_id <- lift (py_get request_body "trigger_id" (JStr ""));;
     user <- lift (py_getitem request_body "user");;
     user_id <- lift (py_getitem user "id");;
     user <- lift (py_getitem request_body "user");;
     user_name <- lift (py_getitem user "name");;
     response <-
       (let overrides := overrides request_body_text trigger_id user_id user_name in
        call (StartBuild project_name overrides)
             (fun t => start_build w t project_name overrides));;
     build_info <- lift (py_getitem response "build");;
     build_id <- lift (py_getitem build_info "id");;
     log INFO ("Build started successfully: " +:+ fmt build_id);;
     ret build_info)
    (fun e =>
       log_exception ("Failed to start CodeBuild project: " +:+ str_exn e) e;;
       add_metric "CodeBuildStartError";;
       raise e).

(** [@app.command("/senora")] *)
Definition handle_slash_command (body : json) : M heap unit :=
  emit (Ack AckEmpty);;
  add_metric "SlashCommandReceived";;
  try_except
    (trigger_id <- lift (py_getitem body "trigger_id");;
     open_modal trigger_id;;
     add_metric "ModalOpened")
    (fun e =>
       log_exception ("Error opening modal: " +:+ str_exn e) e;;
       add_metric "ModalOpenError";;
       try_except
         (user_id <- lift (py_getitem body "user_id");;
          post user_id "❌ Sorry, I encountered an error. Please try again later.";;
          ret tt)
         (fun _ => ret tt)).

(** [view["state"]["values"]["action_select_block"]["action_select"]["selected_option"]["value"]] *)
Definition selected_option_value (view : json) : outcome json :=
  match py_getitem view "state" with Raise e => Raise e | Return state =>
  match py_getitem state "values" with Raise e => Raise e | Return values =>
  match py_getitem values "action_select_block" with Raise e => Raise e | Return block =>
  match py_getitem block "action_select" with Raise e => Raise e | Return element =>
  match py_getitem element "selected_option" with Raise e => Raise e | Return option =>
  py_getitem option "value"
  end end end end end.

(** [@app.view("initial_modal")] *)
Definition handle_initial_modal_submission (body view : json) : M heap unit :=
  add_metric "InitialModalSubmitted";;
  try_except
    (selected_action <- lift (selected_option_value view);;
     log INFO ("Action selected: " +:+ fmt selected_action);;
     known <- lift (py_contains (action_data w) selected_action);;
     if negb known then
       log ERROR ("Invalid action selected: " +:+ fmt selected_action);;
       emit (Ack (AckErrors [("action_select_block", "Invalid action selected")]))
     else
       action_modal <- create_action_modal selected_action;;
       shown <- deref action_modal;;
       emit (Ack (AckUpdate shown));;
       add_metric "ActionFormDisplayed")
    (fun e =>
       log_exception ("Error handling initial modal: " +:+ str_exn e) e;;
       add_metric "InitialModalError";;
       emit (Ack (AckErrors [("action_select_block",
                              "An error occurred. Please try again.")]))).

Definition received_text (action_name : json) : string :=
  "✅ Your request for *" +:+ fmt action_name
    +:+ "* has been received and is being processed...".

Definition running_text (action_name build_id : json) : string :=
  "🚀 *" +:+ fmt action_name +:+ "* is now running!" +:+ nl
    +:+ "Build ID: `" +:+ fmt build_id +:+ "`" +:+ nl
    +:+ "You'll be notified when it completes.".

Definition failed_text (e : exn) : string :=
  "❌ Failed to execute action: " +:+ str_exn e +:+ nl
    +:+ "Please contact support if this continues.".

(** [@app.view("updated_modal")] *)
Definition handle_updated_modal_submission (body view : json) : M heap unit :=
  emit (Ack AckEmpty);;
  add_metric "FinalModalSubmitted";;
  try_except
    (action_name <- lift (py_getitem view "private_metadata");;
     user <- lift (py_getitem body "user");;
     user_id <- lift (py_getitem user "id");;
     log INFO ("Executing action: " +:+ fmt action_name
                 +:+ " for user: " +:+ fmt user_id);;
     post user_id (received_text action_name);;
     build_info <- execute_action action_name body;;
     build_id <- lift (py_getitem build_info "id");;
     post user_id (running_text action_name build_id);;
     add_metric "ActionExecuted";;
     emit (Metadata "action_name" action_name))
    (fun e =>
       log_exception ("Error executing action: " +:+ str_exn e) e;;
       add_metric "ActionExecutionError";;
       try_except
         (user <- lift (py_getitem body "user");;
          user_id <- lift (py_getitem user "id");;
          post user_id (failed_text e);;
          ret tt)
         (fun _ => ret tt)).

(** *** The events of a final submission, named *)

(** The job start that [execute_action action_name request_body] asks for. *)
Definition job_start (action_name request_body trigger_id user_id user_name : json)
    : event :=
  StartBuild (project_name action_name)
             (overrides (json_dumps request_body) trigger_id user_id user_name).

Definition starting (action_name : json) : event :=
  Log INFO ("Starting CodeBuild project: " +:+ project_name action_name).

(** What [execute_action] leaves behind when the job start raised [e]:
    a [ClientError] is logged and counted before it goes up. *)
Definition start_failure (e : exn) : list event :=
  if is_ClientError e
  then [LogException ERROR ("Failed to start CodeBuild project: " +:+ str_exn e) e;
        Metric "CodeBuildStartError"]
  else [].

(** A message to the user. *)
Definition told (user_id : json) (text : string) : event :=
  ChatPostMessage user_id None (JStr text) false.

(** The final handler before it first writes to the user. *)
Definition acknowledged (action_name user_id : json) : list event :=
  [Ack AckEmpty;
   Metric "FinalModalSubmitted";
   Log INFO ("Executing action: " +:+ fmt action_name +:+ " for user: " +:+ fmt user_id)].

(** The final handler up to and including the receipt. *)
Definition received (action_name user_id : json) : list event :=
  acknowledged action_name user_id ++ [told user_id (received_text action_name)].

(** The [except Exception as e] clause of the final handler. *)
Definition failure_notice (user_id : json) (e : exn) : list event :=
  [LogException ERROR ("Error executing action: " +:+ str_exn e) e;
   Metric "ActionExecutionError";
   told user_id (failed_text e)].
End Bot.

(** A request that carries its sender: [body["user"]["id"]] and
    [body["user"]["name"]] are there. *)
Definition sent_by (body user_id user_name : json) : Prop :=
  exists user, py_getitem body "user" = Return user /\
               py_getitem user "id" = Return user_id /\
               py_getitem user "name" = Return user_name.

(** The options of the select menu of a form: the [options] of the
    [element] of its second block. *)
Definition form_options (view : json) : option (list json) :=
  match py_getitem view "blocks" with
  | Return (JArr [_; block]) =>
      match py_getitem block "element" with
      | Return element =>
          match py_getitem element "options" with
          | Return (JArr options) => Some options
          | _ => None
          end
      | _ => None
      end
  | _ => None
  end.

(** The same world with another registry. *)
Definition with_registry (w : world) (registry : dict addr) : world :=
  World registry (env_BOT_NAME w) (start_build w) (chat_postMessage w) (views_open w).

End SlackBot.


(** ** Concrete runs

    A stand-in runtime and a few worlds and requests, to run the handlers on.
    The theorems below hold for every runtime and every world. *)

Module Scenario.

(** A codec that knows four documents. *)
Definition demo_loads (text : string) : outcome json :=
  if String.eqb text "{}" then Return (JObj [])
  else if String.eqb text "[]" then Return (JArr [])
  else if String.eqb text "null" then Return JNull
  else if String.eqb text "7" then Return (JInt 7)
  else Raise (JSONDecodeError "Expecting value: line 1 column 1 (char 0)").

Definition demo_repr (v : json) : string :=
  match v with
  | JNull => "None"
  | JBool true => "True"
  | JBool false => "False"
  | JInt n => pretty n
  | JFloat _ => "<float>"
  | JStr s => "'" +:+ s +:+ "'"
  | JArr _ => "<list>"
  | JObj _ => "<dict>"
  end.

(** [WebClient(token=...)] as slack_sdk builds it: it keeps
    [None if token is None else token.strip()], so a token that is neither
    has no [strip]. *)
Definition slack_sdk_WebClient (token : json) : outcome json :=
  match token with
  | JNull => Return JNull
  | JStr s => Return (JStr (py_strip s))
  | _ => Raise (AttributeError token "strip")
  end.

Definition demo_runtime : Runtime := {|
  json_dumps := fun v => "<json of " +:+ demo_repr v +:+ ">";
  json_loads := demo_loads;
  py_repr := demo_repr;
  interp_text := fun _ => "<interpreter error>";
  WebClient := slack_sdk_WebClient
|}.

(** *** Notifier *)

Definition slack_ok : json := JObj [("ok", JBool true)].

(** Slack accepts every message; the secret holds no token. *)
Definition notifier_world : SlackNotifier.world := {|
  SlackNotifier.env_SLACK_SECRET_TOKEN := Some "slack/bot";
  SlackNotifier.get_secret_value := fun _ _ => Return (JObj [("SecretString", JStr "{}")]);
  SlackNotifier.chat_postMessage := fun _ _ _ _ _ => Return slack_ok
|}.

Definition cold : proc SlackNotifier.slack_client := Proc [] None.
Definition warm : proc SlackNotifier.slack_client := Proc [] (Some (JStr "xoxb-1")).

Definition in_thread_done : dict json :=
  [("notification_type", JStr "in-thread"); ("message", JStr "done")].

Definition bogus : dict json :=
  [("notification_type", JStr "bogus"); ("message", JStr "x"); ("user_id", JStr "U1")].

Definition untyped_hi : dict json :=
  [("user_id", JStr "U1"); ("message", JStr "hi")].

(** *** Registry *)

(** A path that is not there. *)
Definition no_such_file (path : string) : exn :=
  OSError ("[Errno 2] No such file or directory: '" +:+ path +:+ "'").

(** A path that may not be looked at. *)
Definition permission_denied (path : string) : exn :=
  OSError ("[Errno 13] Permission denied: '" +:+ path +:+ "'").

(** A directory with a document that [open] and [json.load] take as [f]. *)
Definition action_directory (name : string) (f : Blocks.file) : Blocks.dir_entry :=
  Blocks.DirEntry name (Return true) (Return true) f.

(** A directory without a document. *)
Definition bare_directory (path name : string) : Blocks.dir_entry :=
  Blocks.DirEntry name (Return true) (Return false)
    (Blocks.Unreadable (no_such_file (path +:+ "/" +:+ name +:+ "/modal.json"))).

(** A plain file in the actions directory: below it nothing can be. *)
Definition plain_file (path name : string) : Blocks.dir_entry :=
  Blocks.DirEntry name (Return false) (Return false)
    (Blocks.Unreadable (OSError ("[Errno 20] Not a directory: '"
                                   +:+ path +:+ "/" +:+ name +:+ "/modal.json'"))).

(** A directory that cannot be searched: it is a directory, and whatever
    is asked about a path below it is refused. *)
Definition sealed_directory (path name : string) : Blocks.dir_entry :=
  Blocks.DirEntry name (Return true)
    (Raise (permission_denied (path +:+ "/" +:+ name +:+ "/modal.json")))
    (Blocks.Unreadable (permission_denied (path +:+ "/" +:+ name +:+ "/modal.json"))).

Definition actions_path : string := "/var/task/slack_bot/actions".

Definition broken : Blocks.dir_entry := action_directory "broken" (Blocks.Text "oops").

(** Its document is there and may not be opened. *)
Definition locked : Blocks.dir_entry :=
  action_directory "locked"
    (Blocks.Unreadable
       (permission_denied "/var/task/slack_bot/actions/locked/modal.json")).

Definition actions_tree : Blocks.actions_fs := {|
  Blocks.actions_dir := actions_path;
  Blocks.dir_exists := Return true;
  Blocks.iterdir := Return [
    action_directory "restart" (Blocks.Text "{}");
    broken;
    action_directory ".cache" (Blocks.Text "{}");
    locked;
    plain_file actions_path "README.md";
    action_directory "deploy" (Blocks.Text "{}");
    bare_directory actions_path "empty"]
|}.

(** The same with a directory, [sealed], that cannot be searched. *)
Definition sealed_tree : Blocks.actions_fs := {|
  Blocks.actions_dir := actions_path;
  Blocks.dir_exists := Return true;
  Blocks.iterdir := Return [
    action_directory "deploy" (Blocks.Text "{}");
    broken;
    sealed_directory actions_path "sealed";
    action_directory "restart" (Blocks.Text "{}")]
|}.

Definition fresh : proc heap := Proc [] [].

(** *** Bot *)

Definition not_found : string :=
  "An error occurred (ResourceNotFoundException) when calling the StartBuild operation: Project cannot be found: arn:aws:codebuild:eu-west-1:123456789012:project/senora-ghost".

Definition quota : string :=
  "An error occurred (AccountLimitExceededException) when calling the StartBuild operation: Cannot have more than 60 active builds for the account".

(** CodeBuild starts whatever project it is asked for. *)
Definition codebuild_accepts (registry : dict addr) : SlackBot.world := {|
  SlackBot.action_data := registry;
  SlackBot.env_BOT_NAME := None;
  SlackBot.start_build := fun _ project _ =>
    Return (JObj [("build", JObj [("id", JStr (project +:+ ":1"))])]);
  SlackBot.chat_postMessage := fun _ _ _ => Return slack_ok;
  SlackBot.views_open := fun _ _ _ => Return slack_ok
|}.

(** CodeBuild refuses with the given message. *)
Definition codebuild_rejects (msg : string) : SlackBot.world := {|
  SlackBot.action_data := [("deploy", 0)];
  SlackBot.env_BOT_NAME := None;
  SlackBot.start_build := fun _ _ _ => Raise (ClientError msg);
  SlackBot.chat_postMessage := fun _ _ _ => Return slack_ok;
  SlackBot.views_open := fun _ _ _ => Return slack_ok
|}.

Definition deploy_template : dict json :=
  [("type", JStr "modal"); ("callback_id", JStr "draft");
   ("title", SlackBot.plain_text "Deploy"); ("blocks", JArr [])].

(** A process whose registry holds the [deploy] template at address 0. *)
Definition serving : proc heap := Proc [] [JObj deploy_template].

Definition dana : json :=
  JObj [("trigger_id", JStr "T1");
        ("user", JObj [("id", JStr "U1"); ("name", JStr "dana")])].

(** A final submission whose token is [name]. *)
Definition final_view (name : string) : json :=
  JObj [("private_metadata", JStr name)].

(** A selection of [name] in the first form. *)
Definition selection_view (name : string) : json :=
  JObj [("state", JObj [("values", JObj [("action_select_block",
    JObj [("action_select", JObj [("selected_option",
      JObj [("text", SlackBot.plain_text name); ("value", JStr name)])])])])])].

End Scenario.

(** ** Counting what a run has done *)

Definition is_ack (ev : event) : bool :=
  match ev with Ack _ => true | _ => false end.

Definition is_secret_fetch (ev : event) : bool :=
  match ev with GetSecretValue _ => true | _ => false end.

Definition is_form_opening (ev : event) : bool :=
  match ev with ViewsOpen _ _ => true | _ => false end.

(** How many of the events [f] picks. *)
Definition count (f : event -> bool) (evs : list event) : nat :=
  length (List.filter f evs).

(** ** [slack_bot/main.py]: the credentials *)

Module SlackCredentials.

(** The environment and Secrets Manager. *)
Record world : Type := World {
  env_SLACK_SECRET_TOKEN : option string;
  get_secret_value : list event -> string -> outcome json
}.

(** [key in v]: a key of a dict, an item of a list, a part of a string;
    nothing else can be searched. *)
Definition py_in (key : string) (v : json) : outcome bool :=
  match v with
  | JObj d => Return (dict_has key d)
  | JArr items => Return (existsb (fun item => py_eq_str item key) items)
  | JStr s => Return (match String.index 0 key s with Some _ => true | None => false end)
  | _ => Raise (TypeError v)
  end.

(** [[key for key in keys if key not in secret_data]] *)
Fixpoint missing (keys : list string) (secret_data : json) : outcome (list string) :=
  match keys with
  | [] => Return []
  | key :: keys' =>
      match py_in key secret_data with
      | Raise e => Raise e
      | Return found =>
          match missing keys' secret_data with
          | Raise e => Raise e
          | Return rest => Return (if found then rest else key :: rest)
          end
      end
  end.

Definition required_keys : list string := ["slack_signing_secret"; "slack_bot_token"].

(** [not secret_name]: unset, or set to the empty string. *)
Definition unset (secret_name : option string) : bool :=
  match secret_name with
  | Some name => String.eqb name ""
  | None => true
  end.

Section Credentials.
Context {rt : Runtime} (w : world).

(** [ValueError] is an [Exception] with its message. *)
Definition get_slack_credentials : M heap json :=
  let secret_name := env_SLACK_SECRET_TOKEN w in
  if unset secret_name then
    log ERROR "SLACK_SECRET_TOKEN environment variable not set";;
    raise (Exception "SLACK_SECRET_TOKEN environment variable is required")
  else
    let secret_name := default "" secret_name in
    try_except_on is_ClientError
      (response <- call (GetSecretValue (Some secret_name))
                        (fun t => get_secret_value w t secret_name);;
       secret_string <- lift (py_getitem response "SecretString");;
       secret_data <- lift (py_json_loads secret_string);;
       missing_keys <- lift (missing required_keys secret_data);;
       match missing_keys with
       | [] =>
           log INFO "Successfully retrieved Slack credentials";;
           ret secret_data
       | _ =>
           let listed := py_repr (JArr (JStr <$> missing_keys)) in
           log ERROR ("Missing required keys in secret: " +:+ listed);;
           raise (Exception ("Secret missing keys: " +:+ listed))
       end)
      (fun e =>
         log ERROR ("Failed to retrieve secret: " +:+ str_exn e);;
         add_metric "SecretRetrievalError";;
         raise e).
End Credentials.

End SlackCredentials.

(** ** The notifier's paths, named *)

Module NotifierPaths.
Import SlackNotifier.

Section Named.
Context {rt : Runtime}.

(** The first line of every run. *)
Definition processing (request : json) : event :=
  Log INFO ("Processing notification: " +:+ json_dumps request).

(** What the [except SlackApiError] clause of a sender adds for [e]. *)
Definition api_error_log (e : exn) : list event :=
  match e with
  | SlackApiError _ (JObj data) =>
      [Log ERROR ("Slack API error: " +:+ fmt (default JNull (dict_get "error" data)));
       Metric "SlackApiError"]
  | _ => []
  end.

(** An exception as a sender can pass it on: the response of a
    [SlackApiError] is an object. *)
Definition passable (e : exn) : Prop :=
  match e with
  | SlackApiError _ (JObj _) => True
  | SlackApiError _ _ => False
  | _ => True
  end.

(** The [except Exception] clause of the handler. *)
Definition internal_error (e : exn) : lambda_response * list event :=
  (Response 500 (json_dumps (JObj [("error", JStr (str_exn e))])),
   [LogException ERROR ("Error sending notification: " +:+ str_exn e) e;
    Metric "NotificationError"]).

(** The answer to a delivered notification. *)
Definition delivered (data : json) : lambda_response :=
  Response 200 (json_dumps (JObj [("message", JStr "Notification sent");
                                  ("response", data)])).

(** What [get_slack_client] adds when the fetch of the secret raised [e]. *)
Definition credentials_error_log (e : exn) : list event :=
  if is_ClientError e
  then [Log ERROR ("Failed to get Slack credentials: " +:+ str_exn e)]
  else [].
End Named.

End NotifierPaths.

(** ** The loader's log, entry by entry *)

Module BlocksLog.
Import Blocks.

Section Lines.
Context {rt : Runtime} (fs : actions_fs).

(** What one turn of the loop writes to the log: nothing for an entry that
    is no candidate or whose probe raises, one line for any other. *)
Definition entry_log (e : dir_entry) : list event :=
  if candidate e then
    match modal_exists e with
    | Return true =>
        match read_modal (modal_json e) with
        | Return _ => [Log INFO ("Loaded action: " +:+ name e)]
        | Raise ex => [Log ERROR (error_line fs e ex)]
        end
    | Return false => [Log WARNING ("No modal.json found for action: " +:+ name e)]
    | Raise _ => []
    end
  else [].

(** The last line of a load. *)
Definition loaded (actions : dict addr) : event :=
  Log INFO ("Loaded " +:+ fmt (JInt (Z.of_nat (length actions))) +:+ " actions").
End Lines.

End BlocksLog.

(** ** The dialog's paths, named *)

Module DialogPaths.
Import SlackBot.

(** [body["user"]["id"]], as both handlers of a submission read it. *)
Definition sender_id (body : json) : outcome json :=
  match py_getitem body "user" with
  | Return user => py_getitem user "id"
  | Raise e => Raise e
  end.

(** The form that the selection of [name] shows: the template's items,
    with the callback and the token. *)
Definition action_form (name : string) (template : dict json) : json :=
  JObj (dict_set "private_metadata" (JStr name)
          (dict_set "callback_id" (JStr "updated_modal") template)).

(** The one message of the slash command. *)
Definition sorry_text : string :=
  "❌ Sorry, I encountered an error. Please try again later.".

End DialogPaths.

(** ** More concrete runs *)

Module Cases.
Import Scenario.

(** *** Notifier *)

Definition channel_not_found : exn :=
  SlackApiError "The request to the Slack API failed."
                (JObj [("ok", JBool false); ("error", JStr "channel_not_found")]).

(** Slack refuses every message, Secrets Manager every request. *)
Definition slack_refuses : SlackNotifier.world := {|
  SlackNotifier.env_SLACK_SECRET_TOKEN := Some "slack/bot";
  SlackNotifier.get_secret_value := fun _ _ => Raise (ClientError "AccessDeniedException");
  SlackNotifier.chat_postMessage := fun _ _ _ _ _ => Raise channel_not_found
|}.

Definition thread_done : dict json :=
  [("notification_type", JStr "in-thread"); ("message", JStr "done");
   ("channel", JStr "C1"); ("thread_ts", JStr "1700000000.000100")].

Definition direct_hi : dict json :=
  [("notification_type", JStr "direct-message"); ("user_id", JStr "U1");
   ("message", JStr "hi")].

(** *** Bot *)

Definition rate_limited : exn :=
  SlackApiError "The request to the Slack API failed."
                (JObj [("ok", JBool false); ("error", JStr "ratelimited")]).

(** Slack raises on every call; CodeBuild starts what it is asked for. *)
Definition slack_down : SlackBot.world := {|
  SlackBot.action_data := [("deploy", 0)];
  SlackBot.env_BOT_NAME := None;
  SlackBot.start_build := fun _ project _ =>
    Return (JObj [("build", JObj [("id", JStr (project +:+ ":1"))])]);
  SlackBot.chat_postMessage := fun _ _ _ => Raise rate_limited;
  SlackBot.views_open := fun _ _ _ => Raise rate_limited
|}.

(** Slack takes messages until a build has been asked for, then raises. *)
Definition slack_drops_out : SlackBot.world := {|
  SlackBot.action_data := [("deploy", 0)];
  SlackBot.env_BOT_NAME := Some "peppa";
  SlackBot.start_build := fun _ project _ =>
    Return (JObj [("build", JObj [("id", JStr (project +:+ ":1"))])]);
  SlackBot.chat_postMessage := fun t _ _ =>
    if existsb is_job_trigger t then Raise rate_limited else Return slack_ok;
  SlackBot.views_open := fun _ _ _ => Return slack_ok
|}.

(** A slash command: Slack sends the user id at the top level. *)
Definition slash : json :=
  JObj [("trigger_id", JStr "T1"); ("user_id", JStr "U1")].

(** A body without its sender. *)
Definition anonymous : json := JObj [("trigger_id", JStr "T1")].

(** *** Credentials *)

Definition whole_secret : dict json :=
  [("slack_signing_secret", JStr "8f742231b10e"); ("slack_bot_token", JStr "xoxb-1")].

(** A runtime whose codec also knows the text of three secrets. *)
Definition vault_runtime : Runtime := {|
  json_dumps := json_dumps (Runtime := demo_runtime);
  json_loads := fun text =>
    if String.eqb text "<whole secret>" then Return (JObj whole_secret)
    else if String.eqb text "<token only>"
         then Return (JObj [("slack_bot_token", JStr "xoxb-1")])
    else if String.eqb text "<numeric token>"
         then Return (JObj [("slack_bot_token", JInt 7)])
         else demo_loads text;
  py_repr := demo_repr;
  interp_text := fun _ => "<interpreter error>";
  WebClient := slack_sdk_WebClient
|}.

(** Secrets Manager holds the named text. *)
Definition vault (secret_name : option string) (text : string)
    : SlackCredentials.world := {|
  SlackCredentials.env_SLACK_SECRET_TOKEN := secret_name;
  SlackCredentials.get_secret_value := fun _ _ =>
    Return (JObj [("SecretString", JStr text)])
|}.

(** The notifier with Secrets Manager holding the named text; Slack
    accepts every message. *)
Definition notifier_with (text : string) : SlackNotifier.world := {|
  SlackNotifier.env_SLACK_SECRET_TOKEN := Some "slack/bot";
  SlackNotifier.get_secret_value := fun _ _ =>
    Return (JObj [("SecretString", JStr text)]);
  SlackNotifier.chat_postMessage := fun _ _ _ _ _ => Return slack_ok
|}.

Definition access_denied : string :=
  "An error occurred (AccessDeniedException) when calling the GetSecretValue operation".

(** Secrets Manager denies access. *)
Definition vault_denies : SlackCredentials.world := {|
  SlackCredentials.env_SLACK_SECRET_TOKEN := Some "slack/bot";
  SlackCredentials.get_secret_value := fun _ _ => Raise (ClientError access_denied)
|}.

End Cases.

(** * Properties *)

(** ** Running a computation *)

Lemma emitted_app {G A} (m : M G A) (p : proc G) (evs : list event) :
  trace (m p).2 = trace p ++ evs -> emitted m p = evs.
Proof. unfold emitted. intros ->. apply drop_app_length. Qed.

(** A run known in full: its result and what it has added. *)
Lemma run_emitted {G A} (m : M G A) (p : proc G) (r : outcome A) (evs : list event)
    (g : G) :
  m p = (r, Proc (trace p ++ evs) g) -> (m p).1 = r /\ emitted m p = evs.
Proof. intros Hrun. split; [by rewrite Hrun |]. apply emitted_app. by rewrite Hrun. Qed.

Lemma py_get_object (d : dict json) (k : string) (dflt : json) :
  py_get (JObj d) k dflt = Return (default dflt (dict_get k d)).
Proof. reflexivity. Qed.

Lemma py_eq_str_false (v : json) (lit : string) :
  v <> JStr lit -> py_eq_str v lit = false.
Proof.
  intros Hne. destruct v; try reflexivity. cbn.
  apply String.eqb_neq. congruence.
Qed.

(** ** Dictionaries *)

Section Dict.
Context {V : Type}.
Implicit Types (d : dict V) (k : string) (v : V).

Lemma dict_get_None d k : dict_get k d = None <-> k ∉ dict_keys d.
Proof.
  unfold dict_keys. induction d as [| [k' v'] d IH]; cbn.
  - split; [intros _; apply not_elem_of_nil | done].
  - rewrite not_elem_of_cons. destruct (decide (k = k')) as [-> | Hne].
    + split; [done | by intros [? _]].
    + rewrite IH. split; [by intros ? | by intros [_ ?]].
Qed.

Lemma dict_get_is_Some d k : is_Some (dict_get k d) <-> k ∈ dict_keys d.
Proof.
  rewrite <- not_eq_None_Some, dict_get_None.
  destruct (decide (k ∈ dict_keys d)) as [Hin | Hout]; split; intros Hk;
    [done | by intros ? | by destruct Hk | done].
Qed.

Lemma dict_has_true d k : dict_has k d = true <-> k ∈ dict_keys d.
Proof. unfold dict_has. by rewrite bool_decide_eq_true, dict_get_is_Some. Qed.

Lemma dict_has_false d k : dict_has k d = false <-> k ∉ dict_keys d.
Proof. unfold dict_has. by rewrite bool_decide_eq_false, dict_get_is_Some. Qed.

Lemma dict_get_set_eq d k v : dict_get k (dict_set k v d) = Some v.
Proof.
  induction d as [| [k' v'] d IH]; cbn.
  - by rewrite decide_True.
  - destruct (decide (k = k')) as [-> | Hne]; cbn.
    + by rewrite decide_True.
    + by rewrite decide_False.
Qed.

Lemma dict_get_set_ne d k k' v :
  k <> k' -> dict_get k' (dict_set k v d) = dict_get k' d.
Proof.
  intros Hne. induction d as [| [k0 v0] d IH]; cbn.
  - by rewrite decide_False.
  - destruct (decide (k = k0)) as [-> | Hne0]; cbn.
    + by rewrite !decide_False.
    + by rewrite IH.
Qed.

(** An assignment keeps the keys in place and adds a new one at the end. *)
Lemma dict_keys_set d k v :
  dict_keys (dict_set k v d) =
    if decide (k ∈ dict_keys d) then dict_keys d else dict_keys d ++ [k].
Proof.
  unfold dict_keys. induction d as [| [k' v'] d IH]; cbn.
  - rewrite decide_False; [done | apply not_elem_of_nil].
  - destruct (decide (k = k')) as [-> | Hne]; cbn.
    + rewrite decide_True; [done | left].
    + rewrite IH. destruct (decide (k ∈ d.*1)).
      * rewrite decide_True; [done | by right].
      * rewrite decide_False; [done |]. rewrite elem_of_cons. by intros [? | ?].
Qed.

(** The keys of a dict stay distinct. *)
Lemma dict_set_NoDup d k v : NoDup (dict_keys d) -> NoDup (dict_keys (dict_set k v d)).
Proof.
  intros Hd. rewrite dict_keys_set. case_decide; [done |].
  apply NoDup_app. repeat split; [done | | apply NoDup_singleton].
  intros x Hx ->%list_elem_of_singleton. done.
Qed.
End Dict.

(** ** Objects *)

Lemma heap_lookup_new (h : heap) (obj : json) : (h ++ [obj]) !! length h = Some obj.
Proof. by apply list_lookup_middle. Qed.

Lemma heap_insert_new (h : heap) (obj obj' : json) :
  <[length h := obj']> (h ++ [obj]) = h ++ [obj'].
Proof. rewrite insert_app_r_alt by done. by rewrite Nat.sub_diag. Qed.

(** An assignment through an address writes into the object that every
    other holder of the address sees. *)
Lemma py_setitem_in_place (a : addr) (k : string) (v : json) (d : dict json)
    (p : proc heap) :
  globals p !! a = Some (JObj d) ->
  py_setitem a k v p =
    (Return tt, Proc (trace p) (<[a := JObj (dict_set k v d)]> (globals p))) /\
  globals (py_setitem a k v p).2 !! a = Some (JObj (dict_set k v d)).
Proof.
  intros Ha. unfold py_setitem, deref. run. rewrite Ha. cbn. split; [done |].
  apply list_lookup_insert_eq. by eapply lookup_lt_Some.
Qed.

(** ** The notifier *)

Module SlackNotifierSpec.
Import SlackNotifier.

Section Validation.
Context {rt : Runtime} (w : world).

Lemma rejected_sound d p error complaint :
  lambda_handler w (JObj d) p = rejected d p error complaint ->
  (exists body, (lambda_handler w (JObj d) p).1 = Return (Response 400 body)) /\
  existsb is_delivery (emitted (lambda_handler w (JObj d)) p) = false /\
  globals (lambda_handler w (JObj d) p).2 = globals p.
Proof.
  intros Hrun.
  assert (Hem : emitted (lambda_handler w (JObj d)) p =
                  [Log INFO ("Processing notification: " +:+ json_dumps (JObj d));
                   Log ERROR complaint]).
  { apply emitted_app. by rewrite Hrun. }
  rewrite Hem, Hrun. unfold bad_request. cbn. eauto.
Qed.

Lemma no_message_rejected d p :
  truthy (default (JStr "") (dict_get "message" d)) = false ->
  lambda_handler w (JObj d) p =
    rejected d p "Message is required" "No message provided".
Proof.
  intros Hmsg. unfold lambda_handler, rejected.
  rewrite !py_get_object. run. rewrite Hmsg. cbn. by traces.
Qed.

(** C6. An in-thread event without [channel] or without [thread_ts] is
    answered with status 400, and nothing was posted to Slack: the
    handler has only written to the log. *)
Theorem in_thread_without_target_is_400 (d : dict json) (p : proc slack_client) :
  dict_get "notification_type" d = Some (JStr "in-thread") ->
  dict_get "channel" d = None \/ dict_get "thread_ts" d = None ->
  (exists body, (lambda_handler w (JObj d) p).1 = Return (Response 400 body)) /\
  existsb is_delivery (emitted (lambda_handler w (JObj d)) p) = false /\
  globals (lambda_handler w (JObj d) p).2 = globals p.
Proof.
  intros Hty Hmiss.
  destruct (truthy (default (JStr "") (dict_get "message" d))) eqn:Hmsg;
    [| by eapply rejected_sound, no_message_rejected].
  apply (rejected_sound d p
           "channel and thread_ts required for thread replies"
           "Missing channel or thread_ts for thread reply").
  unfold lambda_handler, rejected. rewrite !py_get_object, Hty. run.
  rewrite Hmsg. cbn.
  assert (Hneg : negb (truthy (default JNull (dict_get "channel" d)))
                 || negb (truthy (default JNull (dict_get "thread_ts" d))) = true).
  { destruct Hmiss as [-> | ->]; cbn; [done | apply orb_true_r]. }
  rewrite Hneg. run. by traces.
Qed.

(** C7. An event whose [notification_type] is there and is neither
    ["direct-message"] nor ["in-thread"] is answered with status 400,
    and nothing was posted to Slack. *)
Theorem unknown_notification_type_is_400 (d : dict json) (v : json)
    (p : proc slack_client) :
  dict_get "notification_type" d = Some v ->
  v <> JStr "direct-message" ->
  v <> JStr "in-thread" ->
  (exists body, (lambda_handler w (JObj d) p).1 = Return (Response 400 body)) /\
  existsb is_delivery (emitted (lambda_handler w (JObj d)) p) = false /\
  globals (lambda_handler w (JObj d) p).2 = globals p.
Proof.
  intros Hty Hdm Hth.
  destruct (truthy (default (JStr "") (dict_get "message" d))) eqn:Hmsg;
    [| by eapply rejected_sound, no_message_rejected].
  apply (rejected_sound d p
           ("Invalid notification_type: " +:+ fmt v)
           ("Invalid notification type: " +:+ fmt v)).
  unfold lambda_handler, rejected. rewrite !py_get_object, Hty. run.
  rewrite Hmsg. cbn.
  rewrite (py_eq_str_false _ _ Hdm), (py_eq_str_false _ _ Hth). run. by traces.
Qed.

(** C9. An event without [notification_type] takes the direct-message
    path: with a message, it is rejected only for want of a [user_id]
    (the direct-message complaint), and with a [user_id] the handler
    calls [send_direct_message user_id message] and answers 200 when
    that returns, 500 when it raises. With a client at hand and Slack
    accepting, exactly one message goes to the user. *)
Theorem missing_notification_type_is_direct_message (d : dict json)
    (message : json) (p : proc slack_client) :
  dict_get "notification_type" d = None ->
  dict_get "message" d = Some message ->
  truthy message = true ->
  let user_id := default JNull (dict_get "user_id" d) in
  let processing := Log INFO ("Processing notification: " +:+ json_dumps (JObj d)) in
  let p0 := Proc (trace p ++ [processing]) (globals p) in
  (truthy user_id = false ->
   lambda_handler w (JObj d) p =
     rejected d p "user_id is required for direct messages"
                  "No user_id provided for direct message") /\
  (truthy user_id = true ->
   lambda_handler w (JObj d) p =
     match send_direct_message w user_id message p0 with
     | (Return response, p') => sent response p'
     | (Raise e, p') =>
         (Return (Response 500 (json_dumps (JObj [("error", JStr (str_exn e))]))),
          Proc (trace p' ++ [LogException ERROR
                               ("Error sending notification: " +:+ str_exn e) e;
                             Metric "NotificationError"])
               (globals p'))
     end) /\
  (truthy user_id = true ->
   forall token data,
     globals p = Some token ->
     chat_postMessage w (trace p0) token user_id None message = Return data ->
     lambda_handler w (JObj d) p =
       (Return (Response 200 (json_dumps (JObj [("message", JStr "Notification sent");
                                                ("response", data)]))),
        Proc (trace p ++ [processing;
                          ChatPostMessage user_id None message true;
                          Log INFO ("Message sent to user " +:+ fmt user_id);
                          Metric "DirectMessageSent";
                          Log INFO "Notification sent successfully"])
             (Some token))).
Proof.
  intros Hty Hmsg Htruthy user_id processing p0.
  repeat split.
  - intros Hno. unfold lambda_handler, rejected.
    rewrite !py_get_object, Hty, Hmsg. cbn [from_option id]. run. rewrite Htruthy. cbn.
    fold user_id. rewrite Hno. cbn. by traces.
  - intros Hyes. unfold lambda_handler.
    rewrite !py_get_object, Hty, Hmsg. cbn [from_option id]. run. rewrite Htruthy. cbn.
    fold user_id. rewrite Hyes. cbn. fold processing. fold p0.
    destruct (send_direct_message w user_id message p0) as [[response | e] p'];
      [reflexivity | by traces].
  - intros Hyes token data Hclient Hslack. unfold lambda_handler.
    rewrite !py_get_object, Hty, Hmsg. cbn [from_option id]. run. rewrite Htruthy. cbn.
    fold user_id. rewrite Hyes. cbn. fold processing.
    unfold send_direct_message, get_slack_client, post. run.
    rewrite Hclient. run.
    unfold p0 in Hslack. cbn [trace] in Hslack. rewrite Hslack. run.
    by traces.
Qed.
End Validation.

Import Scenario.
#[local] Existing Instance demo_runtime.

Lemma in_thread_without_target_witness :
  (exists body, (lambda_handler (rt := demo_runtime) notifier_world
                   (JObj in_thread_done) cold).1 = Return (Response 400 body)) /\
  existsb is_delivery (emitted (lambda_handler (rt := demo_runtime) notifier_world
                                  (JObj in_thread_done)) cold) = false /\
  globals (lambda_handler (rt := demo_runtime) notifier_world
             (JObj in_thread_done) cold).2 = globals cold.
Proof.
  apply (in_thread_without_target_is_400 (rt := demo_runtime)
           notifier_world in_thread_done cold).
  - reflexivity.
  - left. reflexivity.
Defined.

Lemma unknown_notification_type_witness :
  (exists body, (lambda_handler (rt := demo_runtime) notifier_world
                   (JObj bogus) warm).1 = Return (Response 400 body)) /\
  existsb is_delivery (emitted (lambda_handler (rt := demo_runtime) notifier_world
                                  (JObj bogus)) warm) = false /\
  globals (lambda_handler (rt := demo_runtime) notifier_world (JObj bogus) warm).2
    = globals warm.
Proof.
  apply (unknown_notification_type_is_400 (rt := demo_runtime)
           notifier_world bogus (JStr "bogus") warm).
  - reflexivity.
  - discriminate.
  - discriminate.
Defined.

Lemma missing_notification_type_witness :
  (lambda_handler (rt := demo_runtime) notifier_world (JObj untyped_hi) warm).1
    = Return (Response 200 (json_dumps (JObj [("message", JStr "Notification sent");
                                              ("response", slack_ok)]))) /\
  filter (fun ev => is_delivery ev = true)
         (trace (lambda_handler (rt := demo_runtime) notifier_world
                   (JObj untyped_hi) warm).2)
    = [ChatPostMessage (JStr "U1") None (JStr "hi") true].
Proof.
  destruct (missing_notification_type_is_direct_message (rt := demo_runtime)
              notifier_world untyped_hi (JStr "hi") warm
              eq_refl eq_refl eq_refl) as (_ & _ & Hdelivers).
  rewrite (Hdelivers eq_refl (JStr "xoxb-1") slack_ok eq_refl eq_refl).
  split; reflexivity.
Defined.
End SlackNotifierSpec.

(** ** The registry loader *)

Module BlocksSpec.
Import Blocks.

Section Loading.
Context {rt : Runtime} (fs : actions_fs).

(** One turn of the loop, by cases on the entry. *)
Lemma load_action_run (actions : dict addr) (e : dir_entry) (p : proc heap) :
  load_action fs actions e p =
    match fault e with
    | Some ex => (Raise ex, p)
    | None =>
        if candidate e then
          match modal_exists e with
          | Return false =>
              (Return actions,
               Proc (trace p ++ [Log WARNING ("No modal.json found for action: "
                                                +:+ name e)])
                    (globals p))
          | _ =>
              match read_modal (modal_json e) with
              | Return doc =>
                  (Return (dict_set (name e) (length (globals p)) actions),
                   Proc (trace p ++ [Log INFO ("Loaded action: " +:+ name e)])
                        (globals p ++ [doc]))
              | Raise ex =>
                  (Return actions,
                   Proc (trace p ++ [Log ERROR (error_line fs e ex)]) (globals p))
              end
          end
        else (Return actions, p)
    end.
Proof.
  unfold load_action, fault, candidate, error_line, load_modal, read_modal, alloc.
  destruct (is_dir e) as [[|] | ex0]; run; try reflexivity.
  destruct (hidden (name e)); cbn; [reflexivity |].
  destruct (modal_exists e) as [[|] | ex0]; cbn; try reflexivity.
  destruct (modal_json e) as [ex | content]; cbn.
  - by destruct (is_JSONDecodeError ex).
  - destruct (json_loads content) as [doc | ex]; cbn; [done |].
    by destruct (is_JSONDecodeError ex).
Qed.

(** A turn only adds to the trace and to the heap; when it returns it has
    assigned at most the entry's own name. *)
Lemma load_action_frame (actions : dict addr) (e : dir_entry) (p : proc heap) :
  exists r p' evs objs,
    load_action fs actions e p = (r, p') /\
    trace p' = trace p ++ evs /\
    globals p' = globals p ++ objs /\
    (forall actions', r = Return actions' ->
       (forall k, k <> name e -> dict_get k actions' = dict_get k actions) /\
       (NoDup (dict_keys actions) -> NoDup (dict_keys actions'))).
Proof.
  rewrite load_action_run.
  destruct (fault e);
    [| destruct (candidate e);
       [destruct (modal_exists e) as [[|] | ?];
        try destruct (read_modal (modal_json e)) |]].
  all: do 4 eexists; split; [reflexivity |]; cbn [trace globals].
  all: split; [first [reflexivity | symmetry; apply app_nil_r] |].
  all: split; [first [reflexivity | symmetry; apply app_nil_r] |].
  all: intros actions' Hret; simplify_eq; split; try done.
  all: first [ intros k Hk; by apply dict_get_set_ne | apply dict_set_NoDup ].
Qed.

Lemma load_all_NoDup (entries : list dir_entry) :
  forall (actions actions' : dict addr) (p p' : proc heap),
    load_all fs actions entries p = (Return actions', p') ->
    NoDup (dict_keys actions) ->
    NoDup (dict_keys actions').
Proof.
  induction entries as [| e rest IH]; intros actions actions' p p' Hrun Hkeys.
  - cbn in Hrun. run. by simplify_eq.
  - cbn [load_all] in Hrun. unfold bind at 1 in Hrun.
    destruct (load_action_frame actions e p)
      as ([actions1 | ex] & p1 & _ & _ & Hstep & _ & _ & Hframe);
      rewrite Hstep in Hrun; [| done].
    destruct (Hframe actions1 eq_refl) as [_ Hkeys1].
    eapply IH; [exact Hrun | by apply Hkeys1].
Qed.

(** The registry is a dict: no name twice. *)
Lemma load_actions_NoDup (p p' : proc heap) (actions : dict addr) :
  load_actions fs p = (Return actions, p') -> NoDup (dict_keys actions).
Proof.
  unfold load_actions. run.
  destruct (dir_exists fs) as [[|] | ex]; cbn; [| | done].
  - destruct (iterdir fs) as [entries | ex]; cbn; [| done].
    destruct (load_all fs [] entries p) as [[loaded | ex] p1] eqn:Hloop;
      cbn; [| done].
    intros Hrun. simplify_eq.
    eapply load_all_NoDup; [exact Hloop | apply NoDup_nil_2].
  - intros Hrun. simplify_eq. apply NoDup_nil_2.
Qed.
End Loading.

Import Scenario.
#[local] Existing Instance demo_runtime.

(** C8. A directory that cannot be searched aborts the load. With the
    actions [deploy] (valid), [broken] (invalid JSON), [sealed] (a
    directory without search permission) and [restart] (valid), the load
    takes [deploy], skips [broken] with its error line, and then raises
    the [PermissionError] of [modal_file.exists()]: no registry is
    returned and [restart] is never looked at. *)
Theorem unsearchable_directory_aborts_load :
  load_actions sealed_tree fresh =
    (Raise (permission_denied "/var/task/slack_bot/actions/sealed/modal.json"),
     Proc [Log INFO "Loaded action: deploy";
           Log ERROR "Invalid JSON in /var/task/slack_bot/actions/broken/modal.json: Expecting value: line 1 column 1 (char 0)"]
          [JObj []]).
Proof. reflexivity. Qed.
End BlocksSpec.

(** ** The dialog and the job trigger *)

Module SlackBotSpec.
Import SlackBot.

Section JobTrigger.
Context {rt : Runtime} (w : world).

Lemma sent_by_trigger_id body user_id user_name :
  sent_by body user_id user_name ->
  exists trigger_id, py_get body "trigger_id" (JStr "") = Return trigger_id.
Proof.
  intros (user & Huser & _). destruct body; try discriminate. eauto.
Qed.

(** [execute_action], run: the job start is asked for once, under the
    computed name, and what follows depends on the answer. *)
Lemma execute_action_run action_name body trigger_id user_id user_name p :
  sent_by body user_id user_name ->
  py_get body "trigger_id" (JStr "") = Return trigger_id ->
  let asked := trace p ++ [starting w action_name;
                           job_start w action_name body trigger_id user_id user_name] in
  execute_action w action_name body p =
    match start_build w (trace p ++ [starting w action_name])
            (project_name w action_name)
            (overrides (json_dumps body) trigger_id user_id user_name) with
    | Return response =>
        match py_getitem response "build" with
        | Return build_info =>
            match py_getitem build_info "id" with
            | Return build_id =>
                (Return build_info,
                 Proc (asked ++ [Log INFO ("Build started successfully: "
                                             +:+ fmt build_id)]) (globals p))
            | Raise e => (Raise e, Proc (asked ++ start_failure e) (globals p))
            end
        | Raise e => (Raise e, Proc (asked ++ start_failure e) (globals p))
        end
    | Raise e => (Raise e, Proc (asked ++ start_failure e) (globals p))
    end.
Proof.
  intros (user & Huser & Hid & Hname) Htrig. cbv zeta.
  unfold execute_action, starting, job_start, start_failure.
  run. rewrite Htrig, Huser. cbn. rewrite Hid. cbn. rewrite Hname. cbn.
  destruct (start_build _ _ _ _) as [response | e]; cbn.
  - destruct (py_getitem response "build") as [build_info | e]; cbn.
    + destruct (py_getitem build_info "id") as [build_id | e]; cbn.
      * by traces.
      * destruct (is_ClientError e); run; traces; by rewrite ?app_nil_r.
    + destruct (is_ClientError e); run; traces; by rewrite ?app_nil_r.
  - destruct (is_ClientError e); run; traces; by rewrite ?app_nil_r.
Qed.

Lemma start_failure_quiet e : existsb is_job_trigger (start_failure e) = false.
Proof. unfold start_failure. by destruct (is_ClientError e). Qed.

(** C4. For a request that carries its sender, [execute_action] asks
    CodeBuild once to start the project named by the bot name, a hyphen
    and the action name, and hands it the serialized request, the
    user's id and the user's name as [REQUEST_BODY], [USER_ID] and
    [USER_NAME]. *)
Theorem job_started_under_computed_name (action_name : string)
    (body user_id user_name : json) (p : proc heap) :
  sent_by body user_id user_name ->
  exists trigger_id rest,
    emitted (execute_action w (JStr action_name) body) p =
      Log INFO ("Starting CodeBuild project: "
                  +:+ default "senora" (env_BOT_NAME w) +:+ "-" +:+ action_name)
      :: StartBuild (default "senora" (env_BOT_NAME w) +:+ "-" +:+ action_name)
           [EnvVar "REQUEST_BODY" (JStr (json_dumps body)) "PLAINTEXT";
            EnvVar "TRIGGER_ID" trigger_id "PLAINTEXT";
            EnvVar "USER_ID" user_id "PLAINTEXT";
            EnvVar "USER_NAME" user_name "PLAINTEXT"]
      :: rest /\
    existsb is_job_trigger rest = false.
Proof.
  intros Hsender.
  destruct (sent_by_trigger_id _ _ _ Hsender) as [trigger_id Htrig].
  exists trigger_id.
  pose proof (execute_action_run (JStr action_name) body trigger_id
                user_id user_name p Hsender Htrig) as Hrun.
  cbv zeta in Hrun.
  assert (Hrest : exists rest,
             trace (execute_action w (JStr action_name) body p).2 =
               trace p ++ starting w (JStr action_name)
                 :: job_start w (JStr action_name) body trigger_id user_id user_name
                 :: rest /\
             existsb is_job_trigger rest = false).
  { rewrite Hrun.
    destruct (start_build _ _ _ _) as [response | e]; cbn.
    - destruct (py_getitem response "build") as [build_info | e]; cbn.
      + destruct (py_getitem build_info "id") as [build_id | e]; cbn.
        * traces. eauto.
        * traces. eauto using start_failure_quiet.
      + traces. eauto using start_failure_quiet.
    - traces. eauto using start_failure_quiet. }
  destruct Hrest as (rest & Htrace & Hquiet). exists rest. split; [| done].
  by apply emitted_app.
Qed.

#[local] Arguments execute_action : simpl never.

(** The final handler, run on a request that carries its token and its
    sender, once Slack has taken the receipt. *)
Lemma final_submission_run body view token user_id user_name receipt p :
  py_getitem view "private_metadata" = Return token ->
  sent_by body user_id user_name ->
  chat_postMessage w (trace p ++ acknowledged token user_id)
    user_id (JStr (received_text token)) = Return receipt ->
  handle_updated_modal_submission w body view p =
    match execute_action w token body
            (Proc (trace p ++ received token user_id) (globals p)) with
    | (Return build_info, p') =>
        match py_getitem build_info "id" with
        | Return build_id =>
            match chat_postMessage w (trace p') user_id
                    (JStr (running_text token build_id)) with
            | Return _ =>
                (Return tt,
                 Proc (trace p' ++ [told user_id (running_text token build_id);
                                    Metric "ActionExecuted";
                                    Metadata "action_name" token])
                      (globals p'))
            | Raise e =>
                (Return tt,
                 Proc (trace p' ++ told user_id (running_text token build_id)
                                   :: failure_notice user_id e)
                      (globals p'))
            end
        | Raise e => (Return tt, Proc (trace p' ++ failure_notice user_id e) (globals p'))
        end
    | (Raise e, p') => (Return tt, Proc (trace p' ++ failure_notice user_id e) (globals p'))
    end.
Proof.
  intros Htoken (user & Huser & Hid & Hname) Hreceipt.
  unfold received, acknowledged in *.
  unfold handle_updated_modal_submission, post, failure_notice in *.
  unfold told in *. run.
  rewrite Htoken. cbn. rewrite Huser. cbn. rewrite Hid. cbn.
  traces. rewrite Hreceipt. cbn. traces.
  destruct (execute_action _ _ _ _) as [[build_info | e] p']; cbn.
  - destruct (py_getitem build_info "id") as [build_id | e]; cbn.
    + destruct (chat_postMessage w (trace p') _ _) as [? | e]; cbn.
      * by traces.
      * traces. by case_oracle.
    + traces. by case_oracle.
  - traces. by case_oracle.
Qed.

(** C5 (amended). When the job start raises [e], the user is sent one
    failure message, and its text is [str(e)] in full between two fixed
    phrases; the same text is logged; no build id is reported. *)
Theorem job_failure_notice_carries_error_text
    (body view token user_id user_name trigger_id receipt : json)
    (e : exn) (p : proc heap) :
  py_getitem view "private_metadata" = Return token ->
  sent_by body user_id user_name ->
  py_get body "trigger_id" (JStr "") = Return trigger_id ->
  chat_postMessage w (trace p ++ acknowledged token user_id)
    user_id (JStr (received_text token)) = Return receipt ->
  start_build w (trace p ++ received token user_id ++ [starting w token])
    (project_name w token)
    (overrides (json_dumps body) trigger_id user_id user_name) = Raise e ->
  emitted (handle_updated_modal_submission w body view) p =
    received token user_id
      ++ [starting w token; job_start w token body trigger_id user_id user_name]
      ++ start_failure e
      ++ [LogException ERROR ("Error executing action: " +:+ str_exn e) e;
          Metric "ActionExecutionError";
          ChatPostMessage user_id None
            (JStr ("❌ Failed to execute action: " +:+ str_exn e +:+ nl
                     +:+ "Please contact support if this continues."))
            false].
Proof.
  intros Htoken Hsender Htrig Hreceipt Hstart.
  apply emitted_app.
  rewrite (final_submission_run _ _ _ _ _ _ _ Htoken Hsender Hreceipt).
  rewrite (execute_action_run _ _ _ _ _ _ Hsender Htrig). cbn [trace].
  rewrite <- app_assoc, Hstart. cbn [trace].
  unfold failure_notice, told, failed_text. by rewrite <- !app_assoc.
Qed.

(** C1 (amended). The final handler does not consult the registry: it
    runs the same whatever the registry holds. On a request that carries
    its token and its sender, once the receipt is out, it asks CodeBuild
    to start the project named after the token; when CodeBuild starts it
    and Slack takes the message, the user is told the build id; when
    CodeBuild raises, the user is told of the failure. *)
Theorem final_submission_ignores_registry
    (body view token user_id user_name trigger_id receipt : json)
    (p : proc heap) :
  py_getitem view "private_metadata" = Return token ->
  sent_by body user_id user_name ->
  py_get body "trigger_id" (JStr "") = Return trigger_id ->
  chat_postMessage w (trace p ++ acknowledged token user_id)
    user_id (JStr (received_text token)) = Return receipt ->
  let asked := received token user_id
                 ++ [starting w token;
                     job_start w token body trigger_id user_id user_name] in
  (forall registry,
     handle_updated_modal_submission (with_registry w registry) body view p =
     handle_updated_modal_submission w body view p) /\
  (exists rest,
     emitted (handle_updated_modal_submission w body view) p = asked ++ rest) /\
  (forall response build_info build_id posted,
     start_build w (trace p ++ received token user_id ++ [starting w token])
       (project_name w token)
       (overrides (json_dumps body) trigger_id user_id user_name) = Return response ->
     py_getitem response "build" = Return build_info ->
     py_getitem build_info "id" = Return build_id ->
     chat_postMessage w
       (trace p ++ asked ++ [Log INFO ("Build started successfully: " +:+ fmt build_id)])
       user_id (JStr (running_text token build_id)) = Return posted ->
     emitted (handle_updated_modal_submission w body view) p =
       asked ++ [Log INFO ("Build started successfully: " +:+ fmt build_id);
                 told user_id (running_text token build_id);
                 Metric "ActionExecuted";
                 Metadata "action_name" token]) /\
  (forall e,
     start_build w (trace p ++ received token user_id ++ [starting w token])
       (project_name w token)
       (overrides (json_dumps body) trigger_id user_id user_name) = Raise e ->
     emitted (handle_updated_modal_submission w body view) p =
       asked ++ start_failure e ++ failure_notice user_id e).
Proof.
  intros Htoken Hsender Htrig Hreceipt asked.
  pose proof (final_submission_run _ _ _ _ _ _ p Htoken Hsender Hreceipt) as Hrun.
  rewrite (execute_action_run _ _ _ _ _ _ Hsender Htrig) in Hrun.
  cbn [trace globals] in Hrun. rewrite <- app_assoc in Hrun.
  split; [| split; [| split]].
  - reflexivity.
  - assert (Hgrows : exists rest,
               trace (handle_updated_modal_submission w body view p).2
                 = trace p ++ asked ++ rest).
    { rewrite Hrun. unfold asked, received, acknowledged. cbn [app].
      repeat (case_oracle; cbn [trace snd]); traces; eexists; reflexivity. }
    destruct Hgrows as [rest Hrest]. exists rest. by apply emitted_app.
  - intros response build_info build_id posted Hstart Hbuild Hid Hposted.
    apply emitted_app. rewrite Hrun, Hstart, Hbuild, Hid. cbn [trace globals].
    rewrite Hid. unfold asked in *.
    rewrite <- ?app_assoc in Hposted. cbn [app] in Hposted.
    traces. rewrite Hposted. cbn [trace snd]. by traces.
  - intros e Hstart. apply emitted_app. rewrite Hrun, Hstart. cbn [trace snd].
    unfold asked. by rewrite <- !app_assoc.
Qed.
End JobTrigger.

Section Dialog.
Context {rt : Runtime} (w : world).

(** C2. Selecting a name that is no key of the registry is answered
    with an error on the selection block, and the handler has asked
    CodeBuild for nothing: it has written two log lines, counted the
    submission and acknowledged with the error. *)
Theorem unknown_selection_is_rejected (body view : json) (name : string)
    (p : proc heap) :
  selected_option_value view = Return (JStr name) ->
  name ∉ dict_keys (action_data w) ->
  handle_initial_modal_submission w body view p =
    (Return tt,
     Proc (trace p ++ [Metric "InitialModalSubmitted";
                       Log INFO ("Action selected: " +:+ name);
                       Log ERROR ("Invalid action selected: " +:+ name);
                       Ack (AckErrors [("action_select_block",
                                        "Invalid action selected")])])
          (globals p)) /\
  existsb is_job_trigger (emitted (handle_initial_modal_submission w body view) p)
    = false.
Proof.
  intros Hsel Hkey.
  assert (Hrun : handle_initial_modal_submission w body view p =
            (Return tt,
             Proc (trace p ++ [Metric "InitialModalSubmitted";
                               Log INFO ("Action selected: " +:+ name);
                               Log ERROR ("Invalid action selected: " +:+ name);
                               Ack (AckErrors [("action_select_block",
                                                "Invalid action selected")])])
                  (globals p))).
  { unfold handle_initial_modal_submission. run. rewrite Hsel. cbn.
    apply dict_has_false in Hkey. rewrite Hkey. cbn. by traces. }
  split; [done |].
  erewrite emitted_app; [| by rewrite Hrun]. reflexivity.
Qed.

(** Whatever it is called with, and also when it raises,
    [create_action_modal] writes into no object that was there: it adds
    at most one object to the heap, and nothing to the trace. *)
Lemma create_action_modal_frame (action_name : json) (p : proc heap) :
  exists objs,
    globals (create_action_modal w action_name p).2 = globals p ++ objs /\
    trace (create_action_modal w action_name p).2 = trace p.
Proof.
  unfold create_action_modal, py_copy, py_setitem, deref, alloc. run.
  destruct (py_lookup (action_data w) action_name) as [a | e]; cbn;
    [| exists []; by rewrite app_nil_r].
  destruct (globals p !! a) as [obj |]; cbn; [| exists []; by rewrite app_nil_r].
  destruct obj; cbn; try (exists []; by rewrite app_nil_r);
    rewrite heap_lookup_new; cbn; [by eexists |].
  rewrite heap_insert_new, heap_lookup_new. cbn. rewrite heap_insert_new.
  by eexists.
Qed.

(** C10. For a name of the registry whose template is a dict,
    [create_action_modal] returns a new object: the template's items
    with [callback_id] set to ["updated_modal"] and [private_metadata]
    to the name. The template itself, and every object there was, is as
    before; this holds for every call, also one that raises. *)
Theorem create_action_modal_leaves_template (action_name : json)
    (p : proc heap) :
  (forall b obj, globals p !! b = Some obj ->
                 globals (create_action_modal w action_name p).2 !! b = Some obj) /\
  (forall name a template,
     action_name = JStr name ->
     dict_get name (action_data w) = Some a ->
     globals p !! a = Some (JObj template) ->
     exists (action_modal : addr) (modal : dict json) (p' : proc heap),
       create_action_modal w action_name p = (Return action_modal, p') /\
       globals p' !! action_modal = Some (JObj modal) /\
       action_modal <> a /\
       dict_get "callback_id" modal = Some (JStr "updated_modal") /\
       dict_get "private_metadata" modal = Some (JStr name) /\
       (forall k, k <> "callback_id" -> k <> "private_metadata" ->
                  dict_get k modal = dict_get k template) /\
       globals p' !! a = Some (JObj template) /\
       trace p' = trace p).
Proof.
  split.
  { intros b obj Hb.
    destruct (create_action_modal_frame action_name p) as (objs & -> & _).
    by apply lookup_app_l_Some. }
  intros name a template -> Hname Ha.
  set (modal := dict_set "private_metadata" (JStr name)
                  (dict_set "callback_id" (JStr "updated_modal") template)).
  exists (length (globals p)), modal,
         (Proc (trace p) (globals p ++ [JObj modal])).
  assert (Hlt : a < length (globals p)) by by eapply lookup_lt_Some.
  split; [| repeat split].
  - unfold create_action_modal, py_copy, py_setitem, deref, alloc. cbn.
    rewrite Hname. run. rewrite Ha. cbn.
    rewrite heap_lookup_new. cbn. rewrite heap_insert_new, heap_lookup_new. cbn.
    by rewrite heap_insert_new.
  - apply heap_lookup_new.
  - lia.
  - unfold modal. rewrite dict_get_set_ne by done. apply dict_get_set_eq.
  - apply dict_get_set_eq.
  - intros k Hk1 Hk2. unfold modal. by rewrite !dict_get_set_ne.
  - by apply lookup_app_l_Some.
Qed.

(** The names of the menu: the keys of the registry, in order. *)
Lemma sorted_keys_spec (d : dict addr) :
  NoDup (dict_keys d) ->
  StronglySorted String.le (sorted (dict_keys d)) /\
  NoDup (sorted (dict_keys d)) /\
  (forall name, name ∈ sorted (dict_keys d) <-> name ∈ dict_keys d).
Proof.
  intros Hd. unfold sorted. split; [| split].
  - apply Sorted_StronglySorted; [apply _ | apply Sorted_merge_sort; apply _].
  - by rewrite merge_sort_Permutation.
  - intros name. by rewrite merge_sort_Permutation.
Qed.

(** The slash command acknowledges, counts, and opens the form. *)
Lemma handle_slash_command_run (body trigger_id : json) (p : proc heap) :
  py_getitem body "trigger_id" = Return trigger_id ->
  exists rest,
    emitted (handle_slash_command w body) p =
      Ack AckEmpty :: Metric "SlashCommandReceived"
        :: ViewsOpen trigger_id (modal_view w) :: rest.
Proof.
  intros Htrigger.
  assert (Hgrows : exists rest,
             trace (handle_slash_command w body p).2 =
               trace p ++ Ack AckEmpty :: Metric "SlashCommandReceived"
                            :: ViewsOpen trigger_id (modal_view w) :: rest).
  { unfold handle_slash_command, open_modal, post. run. rewrite Htrigger. cbn.
    case_oracle; cbn; [traces; eauto |].
    destruct (py_getitem body "user_id"); cbn; [case_oracle; cbn |];
      traces; eauto. }
  destruct Hgrows as [rest Hrest]. exists rest. by apply emitted_app.
Qed.

(** C3. For a registry that [load_actions] has returned, the form that
    the slash command opens has one option for each name of the registry
    and no other, in ascending order of the names, each with its name as
    text and as value. *)
Theorem menu_lists_each_action_once (fs : Blocks.actions_fs)
    (p0 p1 : proc heap) (body trigger_id : json) (p : proc heap) :
  Blocks.load_actions fs p0 = (Return (action_data w), p1) ->
  py_getitem body "trigger_id" = Return trigger_id ->
  exists names,
    (exists rest,
       emitted (handle_slash_command w body) p =
         Ack AckEmpty :: Metric "SlashCommandReceived"
           :: ViewsOpen trigger_id (modal_view w) :: rest) /\
    form_options (modal_view w) =
      Some ((fun name => JObj [("text", JObj [("type", JStr "plain_text");
                                              ("text", JStr name)]);
                               ("value", JStr name)]) <$> names) /\
    StronglySorted String.le names /\
    NoDup names /\
    (forall name, name ∈ names <-> name ∈ dict_keys (action_data w)).
Proof.
  intros Hloaded Htrigger.
  pose proof (BlocksSpec.load_actions_NoDup fs p0 p1 _ Hloaded) as Hkeys.
  destruct (sorted_keys_spec _ Hkeys) as (Hsorted & Hnodup & Hsame).
  exists (sorted (dict_keys (action_data w))).
  split; [by apply handle_slash_command_run |]. by split.
Qed.
End Dialog.

Import Scenario.
#[local] Existing Instance demo_runtime.

Lemma job_started_witness :
  exists trigger_id rest,
    emitted (execute_action (codebuild_accepts []) (JStr "deploy") dana) fresh =
      Log INFO "Starting CodeBuild project: senora-deploy"
      :: StartBuild "senora-deploy"
           [EnvVar "REQUEST_BODY" (JStr (json_dumps dana)) "PLAINTEXT";
            EnvVar "TRIGGER_ID" trigger_id "PLAINTEXT";
            EnvVar "USER_ID" (JStr "U1") "PLAINTEXT";
            EnvVar "USER_NAME" (JStr "dana") "PLAINTEXT"]
      :: rest /\
    existsb is_job_trigger rest = false.
Proof.
  apply (job_started_under_computed_name (codebuild_accepts []) "deploy"
           dana (JStr "U1") (JStr "dana") fresh).
  exists (JObj [("id", JStr "U1"); ("name", JStr "dana")]).
  repeat split; reflexivity.
Defined.

(** C1, as stated, fails: with an empty registry, a final submission whose
    token is [ghost] starts the project [senora-ghost], and the user is
    told that it is running. *)
Lemma unknown_token_starts_job :
  let w := codebuild_accepts [] in
  let evs := emitted (handle_updated_modal_submission w dana (final_view "ghost")) fresh in
  py_contains (action_data w) (JStr "ghost") = Return false /\
  List.filter is_job_trigger evs =
    [StartBuild "senora-ghost"
       [EnvVar "REQUEST_BODY" (JStr (json_dumps dana)) "PLAINTEXT";
        EnvVar "TRIGGER_ID" (JStr "T1") "PLAINTEXT";
        EnvVar "USER_ID" (JStr "U1") "PLAINTEXT";
        EnvVar "USER_NAME" (JStr "dana") "PLAINTEXT"]] /\
  List.filter is_delivery evs =
    [told (JStr "U1") (received_text (JStr "ghost"));
     told (JStr "U1") (running_text (JStr "ghost") (JStr "senora-ghost:1"))].
Proof. repeat split; vm_compute; reflexivity. Qed.

Lemma final_submission_witness :
  emitted (handle_updated_modal_submission (codebuild_accepts []) dana
             (final_view "ghost")) fresh =
    (received (JStr "ghost") (JStr "U1")
       ++ [starting (codebuild_accepts []) (JStr "ghost");
           job_start (codebuild_accepts []) (JStr "ghost") dana
             (JStr "T1") (JStr "U1") (JStr "dana")])
      ++ [Log INFO "Build started successfully: senora-ghost:1";
          told (JStr "U1") (running_text (JStr "ghost") (JStr "senora-ghost:1"));
          Metric "ActionExecuted";
          Metadata "action_name" (JStr "ghost")].
Proof.
  assert (Hsender : sent_by dana (JStr "U1") (JStr "dana")).
  { exists (JObj [("id", JStr "U1"); ("name", JStr "dana")]).
    repeat split; reflexivity. }
  destruct (final_submission_ignores_registry (codebuild_accepts []) dana
              (final_view "ghost") (JStr "ghost") (JStr "U1") (JStr "dana")
              (JStr "T1") slack_ok fresh eq_refl Hsender eq_refl eq_refl)
    as (_ & _ & Hstarted & _).
  exact (Hstarted _ _ (JStr "senora-ghost:1") slack_ok eq_refl eq_refl eq_refl eq_refl).
Defined.

(** C5, as stated, fails: the failure message carries the text of the
    error, here with the ARN of the project and the account number, and
    another error makes another message. *)
Lemma failure_notice_discloses_error_text :
  let said msg :=
    List.filter is_delivery
      (emitted (handle_updated_modal_submission (codebuild_rejects msg) dana
                  (final_view "ghost")) fresh) in
  let notice :=
    "❌ Failed to execute action: " +:+ not_found +:+ nl
      +:+ "Please contact support if this continues." in
  said not_found = [told (JStr "U1") (received_text (JStr "ghost"));
                    told (JStr "U1") notice] /\
  String.index 0 "arn:aws:codebuild:eu-west-1:123456789012:project/senora-ghost" notice
    = Some 140 /\
  said quota <> said not_found.
Proof. repeat split; vm_compute; (reflexivity || discriminate). Qed.

Lemma job_failure_notice_witness :
  emitted (handle_updated_modal_submission (codebuild_rejects quota) dana
             (final_view "deploy")) fresh =
    received (JStr "deploy") (JStr "U1")
      ++ [starting (codebuild_rejects quota) (JStr "deploy");
          job_start (codebuild_rejects quota) (JStr "deploy") dana
            (JStr "T1") (JStr "U1") (JStr "dana")]
      ++ start_failure (ClientError quota)
      ++ [LogException ERROR ("Error executing action: " +:+ quota) (ClientError quota);
          Metric "ActionExecutionError";
          ChatPostMessage (JStr "U1") None
            (JStr ("❌ Failed to execute action: " +:+ quota +:+ nl
                     +:+ "Please contact support if this continues."))
            false].
Proof.
  apply (job_failure_notice_carries_error_text (codebuild_rejects quota) dana
           (final_view "deploy") (JStr "deploy") (JStr "U1") (JStr "dana")
           (JStr "T1") slack_ok (ClientError quota) fresh).
  - reflexivity.
  - exists (JObj [("id", JStr "U1"); ("name", JStr "dana")]).
    repeat split; reflexivity.
  - reflexivity.
  - reflexivity.
  - reflexivity.
Defined.

Lemma unknown_selection_witness :
  handle_initial_modal_submission (codebuild_accepts [("deploy", 0)]) dana
    (selection_view "ghost") serving =
    (Return tt,
     Proc (trace serving ++ [Metric "InitialModalSubmitted";
                             Log INFO "Action selected: ghost";
                             Log ERROR "Invalid action selected: ghost";
                             Ack (AckErrors [("action_select_block",
                                              "Invalid action selected")])])
          (globals serving)) /\
  existsb is_job_trigger
    (emitted (handle_initial_modal_submission (codebuild_accepts [("deploy", 0)])
                dana (selection_view "ghost")) serving) = false.
Proof.
  apply (unknown_selection_is_rejected (codebuild_accepts [("deploy", 0)]) dana
           (selection_view "ghost") "ghost" serving).
  - reflexivity.
  - apply (bool_decide_unpack _). vm_compute. exact I.
Defined.

Lemma create_action_modal_witness :
  exists action_modal modal p',
    create_action_modal (codebuild_accepts [("deploy", 0)]) (JStr "deploy") serving
      = (Return action_modal, p') /\
    globals p' !! action_modal = Some (JObj modal) /\
    action_modal <> 0 /\
    dict_get "callback_id" modal = Some (JStr "updated_modal") /\
    dict_get "private_metadata" modal = Some (JStr "deploy") /\
    (forall k, k <> "callback_id" -> k <> "private_metadata" ->
               dict_get k modal = dict_get k deploy_template) /\
    globals p' !! 0 = Some (JObj deploy_template) /\
    trace p' = trace serving.
Proof.
  destruct (create_action_modal_leaves_template (codebuild_accepts [("deploy", 0)])
              (JStr "deploy") serving) as [_ Hcopy].
  exact (Hcopy "deploy" 0 deploy_template eq_refl eq_refl eq_refl).
Defined.

Lemma menu_witness :
  exists names,
    (exists rest,
       emitted (handle_slash_command (codebuild_accepts [("restart", 0); ("deploy", 1)])
                  dana) serving =
         Ack AckEmpty :: Metric "SlashCommandReceived"
           :: ViewsOpen (JStr "T1")
                (modal_view (codebuild_accepts [("restart", 0); ("deploy", 1)]))
           :: rest) /\
    form_options (modal_view (codebuild_accepts [("restart", 0); ("deploy", 1)])) =
      Some ((fun name => JObj [("text", JObj [("type", JStr "plain_text");
                                              ("text", JStr name)]);
                               ("value", JStr name)]) <$> names) /\
    StronglySorted String.le names /\
    NoDup names /\
    (forall name, name ∈ names <-> name ∈ ["restart"; "deploy"]).
Proof.
  apply (menu_lists_each_action_once
           (codebuild_accepts [("restart", 0); ("deploy", 1)])
           actions_tree fresh
           (Blocks.load_actions actions_tree fresh).2 dana (JStr "T1") serving);
    reflexivity.
Defined.
End SlackBotSpec.

(** * Further properties *)

(** ** The notifier, on every path *)

Module SlackNotifierMore.
Import SlackNotifier NotifierPaths.

Section Paths.
Context {rt : Runtime} (w : world).

(** X1. The handler never raises: whatever the event, the services and the
    state of the process, it returns a response, and the status is 200,
    400 or 500. *)
Theorem lambda_handler_always_answers (event : json) (p : proc slack_client) :
  exists r, (lambda_handler w event p).1 = Return r /\
            (statusCode r = 200 \/ statusCode r = 400 \/ statusCode r = 500)%Z.
Proof.
  unfold lambda_handler, sent, bad_request. run.
  repeat (case_match; simplify_eq/=); eauto 10.
Qed.

(** X2. An event that is not an object (a list, a string, a number,
    [null]) is answered with status 500: [event.get] raises, the error is
    logged and counted, nothing is fetched or posted. *)
Theorem non_object_event_is_500 (event : json) (p : proc slack_client) :
  (forall d, event <> JObj d) ->
  lambda_handler w event p =
    (Return (internal_error (AttributeError event "get")).1,
     Proc (trace p ++ processing event :: (internal_error (AttributeError event "get")).2)
          (globals p)).
Proof.
  intros Hshape. unfold lambda_handler, internal_error, processing.
  destruct event; try (by destruct (Hshape fields)); run; cbn; by traces.
Qed.

(** X3. A complete request is delivered once. With a client at hand and
    Slack accepting: a direct-message request with a [user_id] posts the
    message to that user, an in-thread request with [channel] and
    [thread_ts] posts it to that thread of that channel; each posts
    exactly one message and answers 200 with Slack's reply. *)
Theorem complete_request_is_delivered_once (d : dict json)
    (message token data : json) (p : proc slack_client) :
  dict_get "message" d = Some message ->
  truthy message = true ->
  globals p = Some token ->
  (forall user_id,
     dict_get "notification_type" d = Some (JStr "direct-message") ->
     dict_get "user_id" d = Some user_id ->
     truthy user_id = true ->
     chat_postMessage w (trace p ++ [processing (JObj d)]) token user_id None message
       = Return data ->
     lambda_handler w (JObj d) p =
       (Return (delivered data),
        Proc (trace p ++ [processing (JObj d);
                          ChatPostMessage user_id None message true;
                          Log INFO ("Message sent to user " +:+ fmt user_id);
                          Metric "DirectMessageSent";
                          Log INFO "Notification sent successfully"])
             (Some token))) /\
  (forall channel thread_ts,
     dict_get "notification_type" d = Some (JStr "in-thread") ->
     dict_get "channel" d = Some channel ->
     dict_get "thread_ts" d = Some thread_ts ->
     truthy channel = true ->
     truthy thread_ts = true ->
     chat_postMessage w (trace p ++ [processing (JObj d)]) token channel
       (Some thread_ts) message = Return data ->
     lambda_handler w (JObj d) p =
       (Return (delivered data),
        Proc (trace p ++ [processing (JObj d);
                          ChatPostMessage channel (Some thread_ts) message true;
                          Log INFO ("Thread reply sent to channel " +:+ fmt channel);
                          Metric "ThreadReplySent";
                          Log INFO "Notification sent successfully"])
             (Some token))).
Proof.
  intros Hmsg Htruthy Hclient. split.
  - intros user_id Hty Huser Hid Hslack.
    unfold lambda_handler, send_direct_message, get_slack_client, post, sent,
      delivered, processing in *.
    rewrite !py_get_object, Hty, Hmsg, Huser. cbn [from_option id]. run.
    rewrite Htruthy, Hid. cbn. rewrite Hclient. cbn. rewrite Hslack. cbn.
    by traces.
  - intros channel thread_ts Hty Hch Hts Hchannel Hthread Hslack.
    unfold lambda_handler, send_thread_reply, get_slack_client, post, sent,
      delivered, processing in *.
    rewrite !py_get_object, Hty, Hmsg, Hch, Hts. cbn [from_option id]. run.
    rewrite Htruthy, Hchannel, Hthread. cbn. rewrite Hclient. cbn.
    rewrite Hslack. cbn. by traces.
Qed.

(** X4. A delivery that fails is not tried again. When Slack raises [e] on
    a complete direct-message request, the handler answers 500 with
    [str(e)] in the body; it has posted once; a [SlackApiError] is also
    logged with Slack's error code and counted. *)
Theorem failed_delivery_is_500_without_retry (d : dict json)
    (message user_id token : json) (e : exn) (p : proc slack_client) :
  dict_get "notification_type" d = Some (JStr "direct-message") ->
  dict_get "message" d = Some message -> truthy message = true ->
  dict_get "user_id" d = Some user_id -> truthy user_id = true ->
  globals p = Some token ->
  passable e ->
  chat_postMessage w (trace p ++ [processing (JObj d)]) token user_id None message
    = Raise e ->
  lambda_handler w (JObj d) p =
    (Return (internal_error e).1,
     Proc (trace p ++ [processing (JObj d); ChatPostMessage user_id None message true]
             ++ api_error_log e ++ (internal_error e).2)
          (Some token)) /\
  count is_delivery (emitted (lambda_handler w (JObj d)) p) = 1.
Proof.
  intros Hty Hmsg Htruthy Huser Hid Hclient Hpass Hslack.
  assert (Hrun : lambda_handler w (JObj d) p =
    (Return (internal_error e).1,
     Proc (trace p ++ [processing (JObj d); ChatPostMessage user_id None message true]
             ++ api_error_log e ++ (internal_error e).2)
          (Some token))).
  { unfold lambda_handler, send_direct_message, get_slack_client, post, sent,
      on_slack_api_error, internal_error, api_error_log, processing in *.
    rewrite !py_get_object, Hty, Hmsg, Huser. cbn [from_option id]. run.
    rewrite Htruthy, Hid. cbn. rewrite Hclient. cbn. rewrite Hslack. cbn.
    destruct e as [| | | | | | msg [] |]; try done; cbn; by traces. }
  split; [done |].
  erewrite emitted_app; [| by rewrite Hrun].
  unfold count, api_error_log, internal_error.
  destruct e as [| | | | | | msg [] |]; reflexivity.
Qed.

(** X5. When the secret cannot be fetched nothing is posted. On a complete
    direct-message request in a process without a client, if Secrets
    Manager raises [e] the handler answers 500 with [str(e)], has asked
    for the secret once and posted nothing, and the process still has no
    client, so that the next event asks again. *)
Theorem failed_credentials_is_500_and_silent (d : dict json)
    (message user_id : json) (e : exn) (p : proc slack_client) :
  dict_get "notification_type" d = Some (JStr "direct-message") ->
  dict_get "message" d = Some message -> truthy message = true ->
  dict_get "user_id" d = Some user_id -> truthy user_id = true ->
  globals p = None ->
  get_secret_value w (trace p ++ [processing (JObj d)]) (env_SLACK_SECRET_TOKEN w)
    = Raise e ->
  lambda_handler w (JObj d) p =
    (Return (internal_error e).1,
     Proc (trace p ++ [processing (JObj d); GetSecretValue (env_SLACK_SECRET_TOKEN w)]
             ++ credentials_error_log e ++ (internal_error e).2)
          None) /\
  count is_delivery (emitted (lambda_handler w (JObj d)) p) = 0.
Proof.
  intros Hty Hmsg Htruthy Huser Hid Hcold Hsecret.
  assert (Hrun : lambda_handler w (JObj d) p =
    (Return (internal_error e).1,
     Proc (trace p ++ [processing (JObj d); GetSecretValue (env_SLACK_SECRET_TOKEN w)]
             ++ credentials_error_log e ++ (internal_error e).2)
          None)).
  { unfold lambda_handler, send_direct_message, get_slack_client,
      internal_error, credentials_error_log, processing in *.
    rewrite !py_get_object, Hty, Hmsg, Huser. cbn [from_option id]. run.
    rewrite Htruthy, Hid. cbn. rewrite Hcold. cbn. rewrite Hsecret. cbn.
    destruct (is_ClientError e); cbn; rewrite ?Hcold; by traces. }
  split; [done |].
  erewrite emitted_app; [| by rewrite Hrun].
  unfold count, credentials_error_log, internal_error.
  by destruct (is_ClientError e).
Qed.

(** X6. The client is built once. If [get_slack_client] returns, it
    returns a client, never [None], the process holds that client, and
    every later call returns it again without a call to Secrets Manager. *)
Theorem slack_client_is_built_once (p p1 : proc slack_client) (r : slack_client) :
  get_slack_client w p = (Return r, p1) ->
  exists client,
    r = Some client /\
    globals p1 = Some client /\
    get_slack_client w p1 = (Return (Some client), p1).
Proof.
  unfold get_slack_client. run. intros Hrun.
  destruct (globals p) as [cached |] eqn:Hcached; cbn in Hrun.
  - simplify_eq. rewrite Hcached in *. exists cached. rewrite Hcached. by cbn.
  - repeat (case_match; simplify_eq/=); eauto.
Qed.
(** X28. The cold start. On a complete direct-message request in a process
    without a client, when Secrets Manager answers with a secret that
    parses and holds [slack_bot_token]: if [WebClient] returns a client,
    the process keeps it, the one message is posted with it and the answer
    is 200 with Slack's reply; if [WebClient] raises [e] (as it does for a
    token that is neither a string nor [None]), the handler answers 500
    with [str(e)], nothing is posted and the process still has no client. *)
Theorem cold_start_builds_client_or_answers_500 (d : dict json)
    (message user_id response secret_string secret_data bot_token : json)
    (p : proc slack_client) :
  dict_get "notification_type" d = Some (JStr "direct-message") ->
  dict_get "message" d = Some message -> truthy message = true ->
  dict_get "user_id" d = Some user_id -> truthy user_id = true ->
  globals p = None ->
  get_secret_value w (trace p ++ [processing (JObj d)]) (env_SLACK_SECRET_TOKEN w)
    = Return response ->
  py_getitem response "SecretString" = Return secret_string ->
  py_json_loads secret_string = Return secret_data ->
  py_getitem secret_data "slack_bot_token" = Return bot_token ->
  let fetched := [processing (JObj d); GetSecretValue (env_SLACK_SECRET_TOKEN w)] in
  (forall client data,
     WebClient bot_token = Return client ->
     chat_postMessage w (trace p ++ fetched ++ [Log INFO "Slack client initialized"])
       client user_id None message = Return data ->
     lambda_handler w (JObj d) p =
       (Return (delivered data),
        Proc (trace p ++ fetched
                ++ [Log INFO "Slack client initialized";
                    ChatPostMessage user_id None message true;
                    Log INFO ("Message sent to user " +:+ fmt user_id);
                    Metric "DirectMessageSent";
                    Log INFO "Notification sent successfully"])
             (Some client))) /\
  (forall e,
     WebClient bot_token = Raise e ->
     lambda_handler w (JObj d) p =
       (Return (internal_error e).1,
        Proc (trace p ++ fetched ++ credentials_error_log e ++ (internal_error e).2)
             None) /\
     count is_delivery (emitted (lambda_handler w (JObj d)) p) = 0).
Proof.
  intros Hty Hmsg Htruthy Huser Hid Hcold Hsecret Hstring Hloads Htoken fetched.
  subst fetched. split.
  - intros client data Hclient Hslack.
    unfold lambda_handler, send_direct_message, get_slack_client, post, sent,
      delivered, processing in *.
    rewrite !py_get_object, Hty, Hmsg, Huser. cbn [from_option id]. run.
    rewrite Htruthy, Hid. cbn. rewrite Hcold. cbn. rewrite Hsecret. cbn.
    rewrite Hstring. cbn. rewrite Hloads. cbn. rewrite Htoken. cbn.
    rewrite Hclient. cbn. traces. cbn [app] in Hslack. rewrite Hslack. cbn.
    by traces.
  - intros e Hraised.
    assert (Hrun : lambda_handler w (JObj d) p =
      (Return (internal_error e).1,
       Proc (trace p ++ [processing (JObj d); GetSecretValue (env_SLACK_SECRET_TOKEN w)]
               ++ credentials_error_log e ++ (internal_error e).2)
            None)).
    { unfold lambda_handler, send_direct_message, get_slack_client,
        internal_error, credentials_error_log, processing in *.
      rewrite !py_get_object, Hty, Hmsg, Huser. cbn [from_option id]. run.
      rewrite Htruthy, Hid. cbn. rewrite Hcold. cbn. rewrite Hsecret. cbn.
      rewrite Hstring. cbn. rewrite Hloads. cbn. rewrite Htoken. cbn.
      rewrite Hraised. cbn.
      destruct (is_ClientError e); cbn; rewrite ?Hcold; by traces. }
    split; [done |].
    erewrite emitted_app; [| by rewrite Hrun].
    unfold count, credentials_error_log, internal_error.
    by destruct (is_ClientError e).
Qed.
End Paths.

Import Scenario Cases.
#[local] Existing Instance demo_runtime.

Lemma non_object_event_witness :
  lambda_handler notifier_world (JArr []) cold =
    (Return (internal_error (AttributeError (JArr []) "get")).1,
     Proc (trace cold ++ processing (JArr [])
             :: (internal_error (AttributeError (JArr []) "get")).2)
          (globals cold)).
Proof. apply (non_object_event_is_500 notifier_world (JArr []) cold). discriminate. Defined.

Lemma complete_request_witness :
  lambda_handler notifier_world (JObj thread_done) warm =
    (Return (delivered slack_ok),
     Proc (trace warm ++ [processing (JObj thread_done);
                          ChatPostMessage (JStr "C1") (Some (JStr "1700000000.000100"))
                            (JStr "done") true;
                          Log INFO "Thread reply sent to channel C1";
                          Metric "ThreadReplySent";
                          Log INFO "Notification sent successfully"])
          (Some (JStr "xoxb-1"))).
Proof.
  destruct (complete_request_is_delivered_once notifier_world thread_done
              (JStr "done") (JStr "xoxb-1") slack_ok warm eq_refl eq_refl eq_refl)
    as [_ Hthread].
  exact (Hthread (JStr "C1") (JStr "1700000000.000100")
           eq_refl eq_refl eq_refl eq_refl eq_refl eq_refl).
Defined.

Lemma failed_delivery_witness :
  lambda_handler slack_refuses (JObj direct_hi) warm =
    (Return (internal_error channel_not_found).1,
     Proc (trace warm ++ [processing (JObj direct_hi);
                          ChatPostMessage (JStr "U1") None (JStr "hi") true]
             ++ api_error_log channel_not_found ++ (internal_error channel_not_found).2)
          (Some (JStr "xoxb-1"))) /\
  count is_delivery (emitted (lambda_handler slack_refuses (JObj direct_hi)) warm) = 1.
Proof.
  apply (failed_delivery_is_500_without_retry slack_refuses direct_hi
           (JStr "hi") (JStr "U1") (JStr "xoxb-1") channel_not_found warm);
    first [reflexivity | exact I].
Defined.

Lemma failed_credentials_witness :
  lambda_handler slack_refuses (JObj direct_hi) cold =
    (Return (internal_error (ClientError "AccessDeniedException")).1,
     Proc (trace cold ++ [processing (JObj direct_hi); GetSecretValue (Some "slack/bot")]
             ++ credentials_error_log (ClientError "AccessDeniedException")
             ++ (internal_error (ClientError "AccessDeniedException")).2)
          None) /\
  count is_delivery (emitted (lambda_handler slack_refuses (JObj direct_hi)) cold) = 0.
Proof.
  apply (failed_credentials_is_500_and_silent slack_refuses direct_hi
           (JStr "hi") (JStr "U1") (ClientError "AccessDeniedException") cold);
    reflexivity.
Defined.

Lemma slack_client_witness :
  exists client,
    Some (JStr "xoxb-1") = Some client /\
    globals warm = Some client /\
    get_slack_client notifier_world warm = (Return (Some client), warm).
Proof.
  apply (slack_client_is_built_once notifier_world warm warm (Some (JStr "xoxb-1"))).
  reflexivity.
Defined.
End SlackNotifierMore.

Module ColdStart.
Import SlackNotifier NotifierPaths Scenario Cases.
#[local] Existing Instance vault_runtime.

Lemma cold_start_witness :
  lambda_handler (notifier_with "<whole secret>") (JObj direct_hi) cold =
    (Return (delivered slack_ok),
     Proc [processing (JObj direct_hi);
           GetSecretValue (Some "slack/bot");
           Log INFO "Slack client initialized";
           ChatPostMessage (JStr "U1") None (JStr "hi") true;
           Log INFO "Message sent to user U1";
           Metric "DirectMessageSent";
           Log INFO "Notification sent successfully"]
          (Some (JStr "xoxb-1"))) /\
  (lambda_handler (notifier_with "<numeric token>") (JObj direct_hi) cold =
     (Return (internal_error (AttributeError (JInt 7) "strip")).1,
      Proc ([processing (JObj direct_hi); GetSecretValue (Some "slack/bot")]
              ++ (internal_error (AttributeError (JInt 7) "strip")).2)
           None) /\
   count is_delivery
     (emitted (lambda_handler (notifier_with "<numeric token>") (JObj direct_hi)) cold)
     = 0).
Proof.
  split.
  - destruct (SlackNotifierMore.cold_start_builds_client_or_answers_500
                (rt := vault_runtime)
                (notifier_with "<whole secret>") direct_hi (JStr "hi") (JStr "U1")
                (JObj [("SecretString", JStr "<whole secret>")])
                (JStr "<whole secret>") (JObj whole_secret) (JStr "xoxb-1") cold
                eq_refl eq_refl eq_refl eq_refl eq_refl eq_refl eq_refl eq_refl
                eq_refl eq_refl) as [Hbuilt _].
    exact (Hbuilt (JStr "xoxb-1") slack_ok eq_refl eq_refl).
  - destruct (SlackNotifierMore.cold_start_builds_client_or_answers_500
                (rt := vault_runtime)
                (notifier_with "<numeric token>") direct_hi (JStr "hi") (JStr "U1")
                (JObj [("SecretString", JStr "<numeric token>")])
                (JStr "<numeric token>") (JObj [("slack_bot_token", JInt 7)])
                (JInt 7) cold
                eq_refl eq_refl eq_refl eq_refl eq_refl eq_refl eq_refl eq_refl
                eq_refl eq_refl) as [_ Hrefused].
    exact (Hrefused (AttributeError (JInt 7) "strip") eq_refl).
Defined.
End ColdStart.

(** ** The loader, on every directory *)

Module BlocksMore.
Import Blocks BlocksLog.

Section Directory.
Context {rt : Runtime} (fs : actions_fs).

Lemma dict_keys_set_elem {V} (d : dict V) (k k' : string) (v : V) :
  k ∈ dict_keys (dict_set k' v d) <-> k = k' \/ k ∈ dict_keys d.
Proof.
  rewrite dict_keys_set. case_decide as Hin.
  - split; [by right | intros [-> | ?]; done].
  - rewrite elem_of_app, list_elem_of_singleton. tauto.
Qed.

(** One turn on an entry that can be examined: it returns, writes the
    entry's line, and either leaves the registry or binds the entry's name
    to a new object, its document. *)
Lemma load_action_examined (actions : dict addr) (e : dir_entry) (p : proc heap) :
  examined e ->
  exists actions' objs,
    load_action fs actions e p =
      (Return actions', Proc (trace p ++ entry_log fs e) (globals p ++ objs)) /\
    (actions' = actions /\ objs = [] \/
     exists doc, loadable e doc /\
                 actions' = dict_set (name e) (length (globals p)) actions /\
                 objs = [doc]).
Proof.
  intros He. rewrite BlocksSpec.load_action_run. unfold examined in He.
  rewrite He. unfold entry_log, loadable. unfold fault in He.
  destruct (candidate e) eqn:Hcand.
  - destruct (is_dir e) as [directory | ex0]; [| done].
    destruct (modal_exists e) as [[|] | ex0] eqn:Hfound; [| | done].
    + destruct (read_modal (modal_json e)) as [doc | ex] eqn:Hread.
      * exists (dict_set (name e) (length (globals p)) actions), [doc].
        split; [done |]. right. by exists doc.
      * exists actions, []. rewrite app_nil_r. split; [done |]. by left.
    + exists actions, []. rewrite app_nil_r. split; [done |]. by left.
  - exists actions, []. rewrite !app_nil_r. destruct p. split; [done |]. by left.
Qed.

(** The loop over entries that can all be examined: its log is the
    entries' lines in their order; the heap grows; a name is bound after
    the loop if it was before or a loadable candidate has it; addresses
    are those of new objects. *)
Lemma load_all_log (entries : list dir_entry) :
  forall (actions : dict addr) (p : proc heap),
    Forall examined entries ->
    exists actions' objs,
      load_all fs actions entries p =
        (Return actions',
         Proc (trace p ++ concat (entry_log fs <$> entries)) (globals p ++ objs)) /\
      (forall k, k ∈ dict_keys actions' ->
         k ∈ dict_keys actions \/
         exists e doc, e ∈ entries /\ name e = k /\ loadable e doc) /\
      (forall k a, dict_get k actions' = Some a ->
         dict_get k actions = Some a \/
         (length (globals p) <= a < length (globals p ++ objs))).
Proof.
  induction entries as [| e rest IH]; intros actions p Hall.
  - exists actions, []. cbn. rewrite !app_nil_r. destruct p. eauto.
  - apply Forall_cons in Hall as [He Hrest].
    cbn [load_all]. unfold bind at 1.
    destruct (load_action_examined actions e p He)
      as (actions1 & objs1 & -> & Hturn).
    destruct (IH actions1 (Proc (trace p ++ entry_log fs e) (globals p ++ objs1)) Hrest)
      as (actions' & objs & Hrun & Hkeys & Haddr).
    cbn [trace globals] in *.
    exists actions', (objs1 ++ objs). rewrite fmap_cons. cbn [concat].
    rewrite !app_assoc. split; [by rewrite Hrun, <- !app_assoc |]. split.
    + intros k Hk.
      destruct (Hkeys k Hk) as [Hold | (e' & doc' & ? & ? & ?)].
      * destruct Hturn as [[-> ->] | (doc & Hload & -> & ->)]; [by left |].
        apply dict_keys_set_elem in Hold as [-> | ?]; [right | by left].
        exists e, doc. split; [left |]. by split.
      * right. exists e', doc'. split; [by right |]. by split.
    + intros k a Hk. rewrite <- app_assoc.
      destruct (Haddr k a Hk) as [Hold | Hnew].
      * destruct Hturn as [[-> ->] | (doc & Hload & -> & ->)]; [by left |].
        destruct (decide (name e = k)) as [<- | Hne].
        -- rewrite dict_get_set_eq in Hold. simplify_eq. right.
           rewrite !length_app. cbn. lia.
        -- left. by rewrite dict_get_set_ne in Hold.
      * right. rewrite !length_app in *. lia.
Qed.

(** The loop returns only if every entry could be examined. *)
Lemma load_all_returns (entries : list dir_entry) :
  forall (actions actions' : dict addr) (p p' : proc heap),
    load_all fs actions entries p = (Return actions', p') ->
    Forall examined entries.
Proof.
  induction entries as [| e rest IH]; intros actions actions' p p' Hrun.
  - apply Forall_nil_2.
  - cbn [load_all] in Hrun. unfold bind at 1 in Hrun.
    pose proof (BlocksSpec.load_action_run fs actions e p) as Hturn.
    destruct (load_action fs actions e p) as [[actions1 | ex] p1]; [| done].
    apply Forall_cons. split; [| by eapply IH].
    unfold examined. by destruct (fault e).
Qed.

(** The loop stops at the first entry that cannot be examined, with what
    the probe raised; the entries before it have been handled. *)
Lemma load_all_fault (before : list dir_entry) (e : dir_entry)
    (after : list dir_entry) (ex : exn) :
  forall (actions : dict addr) (p : proc heap),
    Forall examined before ->
    fault e = Some ex ->
    exists objs,
      load_all fs actions (before ++ e :: after) p =
        (Raise ex,
         Proc (trace p ++ concat (entry_log fs <$> before)) (globals p ++ objs)).
Proof.
  induction before as [| e0 rest IH]; intros actions p Hall Hfault.
  - exists []. cbn [app load_all]. unfold bind at 1.
    rewrite BlocksSpec.load_action_run, Hfault. cbn. rewrite !app_nil_r.
    by destruct p.
  - apply Forall_cons in Hall as [He Hrest].
    cbn [app load_all]. unfold bind at 1.
    destruct (load_action_examined actions e0 p He) as (actions1 & objs1 & -> & _).
    destruct (IH actions1 (Proc (trace p ++ entry_log fs e0) (globals p ++ objs1))
                 Hrest Hfault) as (objs & ->).
    cbn [trace globals]. exists (objs1 ++ objs).
    rewrite fmap_cons. cbn [concat]. by rewrite !app_assoc.
Qed.

(** The load of a directory that is there and can be listed: the loop,
    and the last line. *)
Lemma load_actions_listed (entries : list dir_entry) (p : proc heap) :
  dir_exists fs = Return true ->
  iterdir fs = Return entries ->
  load_actions fs p =
    match load_all fs [] entries p with
    | (Return actions, p') =>
        (Return actions, Proc (trace p' ++ [loaded actions]) (globals p'))
    | (Raise ex, p') => (Raise ex, p')
    end.
Proof.
  intros Hthere Hdir. unfold load_actions, loaded. rewrite Hthere, Hdir. run.
  cbn [negb]. by destruct (load_all fs [] entries p) as [[actions | ex] p'].
Qed.

(** What a load that returns has done. *)
Lemma load_actions_returned (p p' : proc heap) (actions : dict addr) :
  load_actions fs p = (Return actions, p') ->
  (actions = [] /\ globals p' = globals p) \/
  exists entries objs,
    iterdir fs = Return entries /\
    (forall k, k ∈ dict_keys actions ->
       exists e doc, e ∈ entries /\ name e = k /\ loadable e doc) /\
    (forall k a, dict_get k actions = Some a ->
       length (globals p) <= a < length (globals p ++ objs)) /\
    globals p' = globals p ++ objs.
Proof.
  unfold load_actions. run.
  destruct (dir_exists fs) as [[|] | ex]; cbn; [| | done].
  - destruct (iterdir fs) as [entries | ex]; cbn; [| done].
    destruct (load_all fs [] entries p) as [[registry | ex] p1] eqn:Hloop;
      cbn; [| done].
    intros Hrun. simplify_eq.
    pose proof (load_all_returns _ _ _ _ _ Hloop) as Hall.
    destruct (load_all_log entries [] p Hall)
      as (actions' & objs & Hrun & Hkeys & Haddr).
    rewrite Hloop in Hrun. simplify_eq. right. exists entries, objs.
    split; [done |]. split; [| split; [| done]].
    + intros k Hk. destruct (Hkeys k Hk) as [Hin | ?]; [| done].
      by apply elem_of_nil in Hin.
    + intros k a Hk. by destruct (Haddr k a Hk).
  - intros Hrun. simplify_eq. by left.
Qed.

(** The loop over a directory without a name twice, whose entries can all
    be examined: it returns, and what it leaves holds every loadable
    document and none that failed. *)
Lemma load_all_spec (entries : list dir_entry) :
  forall (actions : dict addr) (p : proc heap),
    Forall examined entries ->
    NoDup (name <$> entries) ->
    exists actions' p' evs objs,
      load_all fs actions entries p = (Return actions', p') /\
      trace p' = trace p ++ evs /\
      globals p' = globals p ++ objs /\
      (forall k, k ∉ (name <$> entries) -> dict_get k actions' = dict_get k actions) /\
      (forall e doc, e ∈ entries -> loadable e doc ->
         exists a, dict_get (name e) actions' = Some a /\
                   globals p' !! a = Some doc) /\
      (forall e ex, e ∈ entries -> malformed e ex ->
         dict_get (name e) actions' = dict_get (name e) actions /\
         Log ERROR (error_line fs e ex) ∈ evs).
Proof.
  induction entries as [| e rest IH]; intros actions p Hall Hnames.
  - exists actions, p, [], []. cbn. rewrite !app_nil_r.
    do 4 (split; [done |]).
    split; intros ? ? Hin; by apply elem_of_nil in Hin.
  - apply Forall_cons in Hall as [He Hex].
    rewrite fmap_cons in Hnames. apply NoDup_cons in Hnames as [Hfresh Hrest].
    cbn [load_all]. unfold bind at 1.
    pose proof (BlocksSpec.load_action_run fs actions e p) as Hrun.
    unfold examined in He. rewrite He in Hrun.
    destruct (BlocksSpec.load_action_frame fs actions e p)
      as (r & p1 & evs1 & objs1 & Hstep & Htr1 & Hheap1 & Hframe).
    rewrite Hstep in Hrun |- *.
    destruct r as [actions1 | ex0].
    2: { destruct (candidate e); [| done].
         destruct (modal_exists e) as [[|] | ?];
           try destruct (read_modal (modal_json e)); done. }
    destruct (Hframe actions1 eq_refl) as [Hget1 _].
    destruct (IH actions1 p1 Hex Hrest)
      as (actions' & p' & evs & objs & Hloop & Htr & Hheap & Hget & Hgood & Hbad).
    exists actions', p', (evs1 ++ evs), (objs1 ++ objs).
    split; [done |]. split; [by rewrite Htr, Htr1, app_assoc |].
    split; [by rewrite Hheap, Hheap1, app_assoc |].
    split; [| split].
    + intros k Hk. rewrite fmap_cons, not_elem_of_cons in Hk.
      destruct Hk as [Hne Hk]. rewrite Hget by done. by apply Hget1.
    + intros e0 doc [-> | Hin]%elem_of_cons Hload; [| by apply Hgood].
      destruct Hload as (Hcand & Hfound & Hread).
      rewrite Hcand, Hfound, Hread in Hrun. injection Hrun as -> ->.
      exists (length (globals p)). rewrite Hget by done.
      split; [apply dict_get_set_eq |].
      rewrite Hheap. cbn [globals]. apply lookup_app_l_Some, heap_lookup_new.
    + intros e0 ex [-> | Hin]%elem_of_cons Hmal.
      * destruct Hmal as (Hcand & Hfound & Hread).
        rewrite Hcand, Hfound, Hread in Hrun. injection Hrun as -> ->.
        rewrite Hget by done. split; [done |].
        cbn [trace] in Htr1. apply app_inv_head in Htr1 as <-.
        apply elem_of_app. left. apply list_elem_of_singleton. reflexivity.
      * destruct (Hbad e0 ex Hin Hmal) as [Hsame Hlog].
        split; [| apply elem_of_app; by right].
        rewrite Hsame. apply Hget1. intros Heq. apply Hfresh.
        rewrite <- Heq. by apply list_elem_of_fmap_2.
Qed.

(** X7. The log of a load, on every path. The load returns exactly when
    every probe of the file system answers. A missing directory gives one
    warning and an empty registry. A directory whose entries can all be
    examined gives, in the order of the directory, one line for each
    candidate (loaded, no [modal.json], or the error) and none for a
    hidden name or a plain file, and then the number of actions. When
    [exists()] or [iterdir()] on the directory raises, the load raises the
    same and has logged nothing; when a probe of an entry raises, the load
    raises the same after the lines of the entries before it. *)
Theorem load_log_follows_directory (p : proc heap) :
  (forall ex, dir_exists fs = Raise ex -> load_actions fs p = (Raise ex, p)) /\
  (dir_exists fs = Return false ->
     load_actions fs p =
       (Return [],
        Proc (trace p ++ [Log WARNING ("Actions directory not found: "
                                         +:+ actions_dir fs)])
             (globals p))) /\
  (dir_exists fs = Return true ->
     (forall ex, iterdir fs = Raise ex -> load_actions fs p = (Raise ex, p)) /\
     (forall entries, iterdir fs = Return entries ->
        (Forall examined entries ->
           exists actions p',
             load_actions fs p = (Return actions, p') /\
             emitted (load_actions fs) p =
               concat (entry_log fs <$> entries) ++ [loaded actions]) /\
        (forall before e after ex,
           entries = before ++ e :: after ->
           Forall examined before ->
           fault e = Some ex ->
           (load_actions fs p).1 = Raise ex /\
           emitted (load_actions fs) p = concat (entry_log fs <$> before)))).
Proof.
  split; [| split].
  - intros ex Hthere. unfold load_actions. rewrite Hthere. run. by destruct p.
  - intros Hthere. unfold load_actions. rewrite Hthere. run. by cbn [negb].
  - intros Hthere. split.
    + intros ex Hdir. unfold load_actions. rewrite Hthere, Hdir. run. cbn [negb].
      by destruct p.
    + intros entries Hdir. split.
      * intros Hall.
        destruct (load_all_log entries [] p Hall) as (actions & objs & Hrun & _).
        exists actions,
          (Proc (trace p ++ concat (entry_log fs <$> entries) ++ [loaded actions])
                (globals p ++ objs)).
        assert (Hload : load_actions fs p =
            (Return actions,
             Proc (trace p ++ concat (entry_log fs <$> entries) ++ [loaded actions])
                  (globals p ++ objs))).
        { rewrite (load_actions_listed entries p Hthere Hdir), Hrun.
          cbn [trace globals]. by rewrite <- app_assoc. }
        split; [done |]. apply emitted_app. by rewrite Hload.
      * intros before e after ex -> Hall Hfault.
        destruct (load_all_fault before e after ex [] p Hall Hfault) as (objs & Hrun).
        apply (run_emitted _ _ _ _ (globals p ++ objs)).
        by rewrite (load_actions_listed _ p Hthere Hdir), Hrun.
Qed.

(** X8. Only what loads is registered. Every name of the registry is the
    name of an entry of the directory that is a directory, is not hidden
    (no leading [.] or [_]), and has a [modal.json] that was read and
    parsed. *)
Theorem registry_holds_only_loaded_candidates (p p' : proc heap)
    (actions : dict addr) (k : string) :
  load_actions fs p = (Return actions, p') ->
  k ∈ dict_keys actions ->
  exists entries e doc,
    iterdir fs = Return entries /\ e ∈ entries /\ name e = k /\
    is_dir e = Return true /\ hidden (name e) = false /\
    modal_exists e = Return true /\ read_modal (modal_json e) = Return doc.
Proof.
  intros Hrun Hk.
  destruct (load_actions_returned p p' actions Hrun)
    as [(-> & _) | (entries & objs & Hdir & Hkeys & _)].
  - by apply elem_of_nil in Hk.
  - destruct (Hkeys k Hk) as (e & doc & Hin & Hname & Hcand & Hfound & Hdoc).
    exists entries, e, doc. unfold candidate in Hcand.
    destruct (is_dir e) as [[|] |]; try done.
    apply negb_true_iff in Hcand. by repeat split.
Qed.

(** X9. A load writes into no object that was there, and every template
    of the registry is an object that the load has made. *)
Theorem load_allocates_fresh_templates (p p' : proc heap) (actions : dict addr) :
  load_actions fs p = (Return actions, p') ->
  (exists objs, globals p' = globals p ++ objs) /\
  (forall b obj, globals p !! b = Some obj -> globals p' !! b = Some obj) /\
  (forall k a, dict_get k actions = Some a ->
     length (globals p) <= a /\ is_Some (globals p' !! a)).
Proof.
  intros Hrun.
  destruct (load_actions_returned p p' actions Hrun)
    as [(-> & ->) | (entries & objs & Hdir & _ & Haddr & ->)].
  - split; [exists []; by rewrite app_nil_r |]. by split.
  - split; [by exists objs |]. split.
    + intros b obj Hb. by apply lookup_app_l_Some.
    + intros k a Hk. destruct (Haddr k a Hk) as [Hlo Hhi].
      split; [done |]. by apply lookup_lt_is_Some.
Qed.
(** X27. Partial availability. In a directory that can be examined (every
    probe answers) and has no name twice, the load returns; every
    candidate whose document loads is in the registry, bound to that
    document; a candidate whose document cannot be opened or parsed is
    not, and its error line is in the log. *)
Theorem every_valid_action_is_loaded (entries : list dir_entry) (p : proc heap) :
  dir_exists fs = Return true ->
  iterdir fs = Return entries ->
  Forall examined entries ->
  NoDup (name <$> entries) ->
  exists actions p',
    load_actions fs p = (Return actions, p') /\
    (forall e doc, e ∈ entries -> loadable e doc ->
       exists a, dict_get (name e) actions = Some a /\
                 globals p' !! a = Some doc) /\
    (forall e ex, e ∈ entries -> malformed e ex ->
       (name e ∉ dict_keys actions) /\
       (Log ERROR (error_line fs e ex) ∈ emitted (load_actions fs) p)).
Proof.
  intros Hthere Hdir Hall Hnames.
  destruct (load_all_spec entries [] p Hall Hnames)
    as (actions & p' & evs & objs & Hloop & Htr & Hheap & _ & Hgood & Hbad).
  assert (Hrun : load_actions fs p =
            (Return actions,
             Proc (trace p ++ evs ++
                     [Log INFO ("Loaded "
                                  +:+ fmt (JInt (Z.of_nat (length actions)))
                                  +:+ " actions")])
                  (globals p'))).
  { rewrite (load_actions_listed entries p Hthere Hdir), Hloop.
    unfold loaded. by rewrite Htr, <- app_assoc. }
  exists actions, (load_actions fs p).2. rewrite Hrun. cbn [snd globals].
  split; [done |]. split; [done |].
  intros e ex Hin Hmal. destruct (Hbad e ex Hin Hmal) as [Hnone Hlog].
  split; [by apply dict_get_None |].
  erewrite emitted_app; [| by rewrite Hrun].
  apply elem_of_app. by left.
Qed.
End Directory.

Import Scenario.
#[local] Existing Instance demo_runtime.

Lemma actions_tree_examined :
  Forall examined
    [action_directory "restart" (Text "{}"); broken;
     action_directory ".cache" (Text "{}"); locked;
     plain_file actions_path "README.md";
     action_directory "deploy" (Text "{}");
     bare_directory actions_path "empty"].
Proof. repeat (apply Forall_cons_2; [reflexivity |]). apply Forall_nil_2. Defined.

Lemma load_log_witness :
  (exists actions p',
     load_actions actions_tree fresh = (Return actions, p') /\
     emitted (load_actions actions_tree) fresh =
       [Log INFO "Loaded action: restart";
        Log ERROR "Invalid JSON in /var/task/slack_bot/actions/broken/modal.json: Expecting value: line 1 column 1 (char 0)";
        Log ERROR "Error loading action locked: [Errno 13] Permission denied: '/var/task/slack_bot/actions/locked/modal.json'";
        Log INFO "Loaded action: deploy";
        Log WARNING "No modal.json found for action: empty";
        loaded actions]) /\
  ((load_actions sealed_tree fresh).1 =
     Raise (permission_denied "/var/task/slack_bot/actions/sealed/modal.json") /\
   emitted (load_actions sealed_tree) fresh =
     [Log INFO "Loaded action: deploy";
      Log ERROR "Invalid JSON in /var/task/slack_bot/actions/broken/modal.json: Expecting value: line 1 column 1 (char 0)"]).
Proof.
  split.
  - destruct (load_log_follows_directory actions_tree fresh) as (_ & _ & Hdir).
    destruct (Hdir eq_refl) as [_ Hlisted].
    destruct (Hlisted _ eq_refl) as [Hreturns _].
    exact (Hreturns actions_tree_examined).
  - destruct (load_log_follows_directory sealed_tree fresh) as (_ & _ & Hdir).
    destruct (Hdir eq_refl) as [_ Hlisted].
    destruct (Hlisted _ eq_refl) as [_ Hstops].
    apply (Hstops [action_directory "deploy" (Text "{}"); broken]
                  (sealed_directory actions_path "sealed")
                  [action_directory "restart" (Text "{}")]
                  (permission_denied "/var/task/slack_bot/actions/sealed/modal.json")).
    + reflexivity.
    + repeat (apply Forall_cons_2; [reflexivity |]). apply Forall_nil_2.
    + reflexivity.
Defined.

Lemma registry_holds_only_loaded_candidates_witness :
  exists entries e doc,
    iterdir actions_tree = Return entries /\ e ∈ entries /\ name e = "deploy" /\
    is_dir e = Return true /\ hidden (name e) = false /\
    modal_exists e = Return true /\ read_modal (modal_json e) = Return doc.
Proof.
  apply (registry_holds_only_loaded_candidates actions_tree fresh
           (load_actions actions_tree fresh).2 [("restart", 0); ("deploy", 1)] "deploy").
  - reflexivity.
  - listed.
Defined.

Lemma load_allocates_fresh_templates_witness :
  (exists objs, globals (load_actions actions_tree serving).2 = globals serving ++ objs) /\
  (forall b obj, globals serving !! b = Some obj ->
                 globals (load_actions actions_tree serving).2 !! b = Some obj) /\
  (forall k a, dict_get k [("restart", 1); ("deploy", 2)] = Some a ->
     length (globals serving) <= a /\
     is_Some (globals (load_actions actions_tree serving).2 !! a)).
Proof.
  apply (load_allocates_fresh_templates actions_tree serving
           (load_actions actions_tree serving).2 [("restart", 1); ("deploy", 2)]).
  reflexivity.
Defined.

Lemma every_valid_action_witness :
  exists actions p',
    load_actions actions_tree fresh = (Return actions, p') /\
    (exists a, dict_get "deploy" actions = Some a /\ globals p' !! a = Some (JObj [])) /\
    ("broken" ∉ dict_keys actions) /\
    ("locked" ∉ dict_keys actions).
Proof.
  destruct (every_valid_action_is_loaded actions_tree _ fresh eq_refl eq_refl
              actions_tree_examined)
    as (actions & p' & Hrun & Hgood & Hbad).
  { apply (bool_decide_unpack _). vm_compute. exact I. }
  exists actions, p'. split; [exact Hrun |]. split; [| split].
  - apply (Hgood (action_directory "deploy" (Text "{}"))).
    + listed.
    + repeat split; reflexivity.
  - apply (Hbad broken (JSONDecodeError "Expecting value: line 1 column 1 (char 0)")).
    + listed.
    + repeat split; reflexivity.
  - apply (Hbad locked
             (permission_denied "/var/task/slack_bot/actions/locked/modal.json")).
    + listed.
    + repeat split; reflexivity.
Defined.
End BlocksMore.

(** ** The dialog, on every path *)

Module SlackBotMore.
Import SlackBot DialogPaths.

Section Handlers.
Context {rt : Runtime} (w : world).

(** X10. Every selection is acknowledged exactly once. Whatever the
    submitted view, the registry and the heap, the selection handler
    returns; it has acknowledged once, either with the form of the
    selected action or with one of its two fixed errors on the selection
    block; it has started no job, posted no message and opened no form. *)
Theorem selection_is_acknowledged_once (body view : json) (p : proc heap) :
  let evs := emitted (handle_initial_modal_submission w body view) p in
  (handle_initial_modal_submission w body view p).1 = Return tt /\
  count is_ack evs = 1 /\
  count is_job_trigger evs = 0 /\
  count is_delivery evs = 0 /\
  count is_form_opening evs = 0 /\
  ((exists shown, Ack (AckUpdate shown) ∈ evs) \/
   Ack (AckErrors [("action_select_block", "Invalid action selected")]) ∈ evs \/
   Ack (AckErrors [("action_select_block", "An error occurred. Please try again.")])
     ∈ evs).
Proof.
  cbv zeta.
  assert (Hrun : exists evs g,
             handle_initial_modal_submission w body view p =
               (Return tt, Proc (trace p ++ evs) g) /\
             count is_ack evs = 1 /\
             count is_job_trigger evs = 0 /\
             count is_delivery evs = 0 /\
             count is_form_opening evs = 0 /\
             ((exists shown, Ack (AckUpdate shown) ∈ evs) \/
              Ack (AckErrors [("action_select_block", "Invalid action selected")])
                ∈ evs \/
              Ack (AckErrors [("action_select_block",
                               "An error occurred. Please try again.")]) ∈ evs)).
  { unfold handle_initial_modal_submission, create_action_modal, py_copy,
      py_setitem, deref, alloc. run.
    destruct (selected_option_value view) as [selected | e]; cbn;
      repeat (case_match; simplify_eq/=);
      traces; do 2 eexists; (split; [reflexivity |]);
      (do 4 (split; [reflexivity |])).
    all: first [ left; eexists; listed | right; left; listed | right; right; listed ]. }
  destruct Hrun as (evs & g & Hrun & Hcounts).
  destruct (run_emitted _ _ _ _ _ Hrun) as [-> ->]. done.
Qed.

(** X11. Every final submission is acknowledged first and handled to the
    end. Whatever the submitted view and body and whatever Slack and
    CodeBuild answer, the final handler returns; its first act is the
    acknowledgement, which is the only one; it asks CodeBuild at most
    once (a failed start is not tried again) and opens no form. *)
Theorem final_submission_never_raises (body view : json) (p : proc heap) :
  let evs := emitted (handle_updated_modal_submission w body view) p in
  (handle_updated_modal_submission w body view p).1 = Return tt /\
  head evs = Some (Ack AckEmpty) /\
  count is_ack evs = 1 /\
  count is_job_trigger evs <= 1 /\
  count is_form_opening evs = 0 /\
  globals (handle_updated_modal_submission w body view p).2 = globals p.
Proof.
  cbv zeta.
  assert (Hrun : exists evs,
             handle_updated_modal_submission w body view p =
               (Return tt, Proc (trace p ++ evs) (globals p)) /\
             head evs = Some (Ack AckEmpty) /\
             count is_ack evs = 1 /\
             count is_job_trigger evs <= 1 /\
             count is_form_opening evs = 0).
  { unfold handle_updated_modal_submission, execute_action, post. run.
    repeat (case_match; simplify_eq/=);
      traces; eexists; (split; [reflexivity |]); cbn; repeat split; lia. }
  destruct Hrun as (evs & Hrun & Hcounts).
  destruct (run_emitted _ _ _ _ _ Hrun) as [-> ->]. rewrite Hrun. cbn.
  destruct Hcounts as (? & ? & ? & ?). done.
Qed.

(** X12. The token goes round. When the selected name is in the registry
    and its template is a dict, the handler acknowledges with the form of
    that action, a new object; the form carries the name as
    [private_metadata] and ["updated_modal"] as [callback_id], which is
    where the final handler reads the action name. *)
Theorem selection_shows_form_with_token (body view : json) (name : string)
    (a : addr) (template : dict json) (p : proc heap) :
  selected_option_value view = Return (JStr name) ->
  dict_get name (action_data w) = Some a ->
  globals p !! a = Some (JObj template) ->
  handle_initial_modal_submission w body view p =
    (Return tt,
     Proc (trace p ++ [Metric "InitialModalSubmitted";
                       Log INFO ("Action selected: " +:+ name);
                       Ack (AckUpdate (action_form name template));
                       Metric "ActionFormDisplayed"])
          (globals p ++ [action_form name template])) /\
  py_getitem (action_form name template) "private_metadata" = Return (JStr name) /\
  py_getitem (action_form name template) "callback_id" = Return (JStr "updated_modal").
Proof.
  intros Hsel Hname Ha. split; [| split].
  - unfold handle_initial_modal_submission, create_action_modal, py_copy,
      py_setitem, deref, alloc, action_form. run. rewrite Hsel. cbn.
    assert (Hhas : dict_has name (action_data w) = true).
    { apply dict_has_true, dict_get_is_Some. by rewrite Hname. }
    rewrite Hhas, Hname. cbn. rewrite Ha. cbn.
    rewrite heap_lookup_new. cbn. rewrite heap_insert_new, heap_lookup_new. cbn.
    rewrite heap_insert_new, heap_lookup_new. cbn. by traces.
  - unfold action_form, py_getitem. by rewrite dict_get_set_eq.
  - unfold action_form, py_getitem.
    rewrite dict_get_set_ne by done. by rewrite dict_get_set_eq.
Qed.

(** X13. The two steps together. After the selection of a registered
    name, a final submission that brings back the form that was shown
    (with its sender, and once Slack has taken the receipt) asks CodeBuild
    to start the project of that very name. *)
Theorem dialog_starts_the_selected_action (body view final_body : json)
    (name : string) (a : addr) (template : dict json)
    (user_id user_name trigger_id receipt : json) (p : proc heap) :
  selected_option_value view = Return (JStr name) ->
  dict_get name (action_data w) = Some a ->
  globals p !! a = Some (JObj template) ->
  sent_by final_body user_id user_name ->
  py_get final_body "trigger_id" (JStr "") = Return trigger_id ->
  let p1 := (handle_initial_modal_submission w body view p).2 in
  chat_postMessage w (trace p1 ++ acknowledged (JStr name) user_id)
    user_id (JStr (received_text (JStr name))) = Return receipt ->
  exists rest,
    emitted (handle_updated_modal_submission w final_body (action_form name template)) p1
      = received (JStr name) user_id
          ++ starting w (JStr name)
          :: StartBuild (default "senora" (env_BOT_NAME w) +:+ "-" +:+ name)
                        (overrides (json_dumps final_body) trigger_id user_id user_name)
          :: rest.
Proof.
  intros Hsel Hname Ha Hsender Htrig p1 Hreceipt.
  assert (Htoken : py_getitem (action_form name template) "private_metadata"
                     = Return (JStr name)).
  { unfold action_form, py_getitem. by rewrite dict_get_set_eq. }
  pose proof (SlackBotSpec.final_submission_run w final_body
                (action_form name template) (JStr name) user_id user_name receipt
                p1 Htoken Hsender Hreceipt) as Hrun.
  rewrite (SlackBotSpec.execute_action_run w _ _ _ _ _ _ Hsender Htrig) in Hrun.
  cbn [trace globals] in Hrun.
  assert (Hgrows : exists rest,
             trace (handle_updated_modal_submission w final_body
                      (action_form name template) p1).2 =
               trace p1 ++ received (JStr name) user_id
                 ++ starting w (JStr name)
                 :: job_start w (JStr name) final_body trigger_id user_id user_name
                 :: rest).
  { rewrite Hrun. unfold received, acknowledged. cbn [app].
    repeat (case_oracle; cbn [trace snd]); traces; eexists; reflexivity. }
  destruct Hgrows as [rest Hrest]. exists rest. by apply emitted_app.
Qed.

Lemma sender_id_read (body user_id : json) :
  sender_id body = Return user_id ->
  exists user, py_getitem body "user" = Return user /\
               py_getitem user "id" = Return user_id.
Proof.
  unfold sender_id. destruct (py_getitem body "user") as [user | e]; [eauto | done].
Qed.

(** X14. No job without a receipt. When Slack raises [e] on the receipt
    message, the final handler does not ask CodeBuild for anything: it
    logs the error and tries once to tell the user of the failure. *)
Theorem no_job_without_receipt (body view token user_id : json) (e : exn)
    (p : proc heap) :
  py_getitem view "private_metadata" = Return token ->
  sender_id body = Return user_id ->
  chat_postMessage w (trace p ++ acknowledged token user_id)
    user_id (JStr (received_text token)) = Raise e ->
  emitted (handle_updated_modal_submission w body view) p =
    received token user_id ++ failure_notice user_id e /\
  count is_job_trigger (emitted (handle_updated_modal_submission w body view) p) = 0.
Proof.
  intros Htoken (user & Huser & Hid)%sender_id_read Hreceipt.
  assert (Hrun : handle_updated_modal_submission w body view p =
            (Return tt,
             Proc (trace p ++ received token user_id ++ failure_notice user_id e)
                  (globals p))).
  { unfold handle_updated_modal_submission, post, received, acknowledged,
      failure_notice in *. unfold told in *. run.
    rewrite Htoken. cbn. rewrite Huser. cbn. rewrite Hid. cbn.
    traces. rewrite Hreceipt. cbn. traces. by case_oracle. }
  destruct (run_emitted _ _ _ _ _ Hrun) as [_ ->]. done.
Qed.

(** X15. A lost confirmation is reported as a failure. When CodeBuild has
    started the build and Slack then raises [e] on the message that
    carries the build id, the handler tells the user that the action
    failed, with [str(e)]; the build has been started, once, and is not
    stopped. *)
Theorem lost_confirmation_is_reported_as_failure
    (body view token user_id user_name trigger_id receipt : json)
    (response build_info build_id : json) (e : exn) (p : proc heap) :
  py_getitem view "private_metadata" = Return token ->
  sent_by body user_id user_name ->
  py_get body "trigger_id" (JStr "") = Return trigger_id ->
  chat_postMessage w (trace p ++ acknowledged token user_id)
    user_id (JStr (received_text token)) = Return receipt ->
  let asked := received token user_id
                 ++ [starting w token;
                     job_start w token body trigger_id user_id user_name] in
  start_build w (trace p ++ received token user_id ++ [starting w token])
    (project_name w token)
    (overrides (json_dumps body) trigger_id user_id user_name) = Return response ->
  py_getitem response "build" = Return build_info ->
  py_getitem build_info "id" = Return build_id ->
  chat_postMessage w
    (trace p ++ asked ++ [Log INFO ("Build started successfully: " +:+ fmt build_id)])
    user_id (JStr (running_text token build_id)) = Raise e ->
  emitted (handle_updated_modal_submission w body view) p =
    asked ++ [Log INFO ("Build started successfully: " +:+ fmt build_id);
              told user_id (running_text token build_id)]
          ++ failure_notice user_id e /\
  count is_job_trigger (emitted (handle_updated_modal_submission w body view) p) = 1.
Proof.
  intros Htoken Hsender Htrig Hreceipt asked Hstart Hbuild Hid Hposted.
  pose proof (SlackBotSpec.final_submission_run w _ _ _ _ _ _ p
                Htoken Hsender Hreceipt) as Hrun.
  rewrite (SlackBotSpec.execute_action_run w _ _ _ _ _ _ Hsender Htrig) in Hrun.
  cbn [trace globals] in Hrun. rewrite <- app_assoc in Hrun.
  rewrite Hstart, Hbuild, Hid in Hrun. cbn [trace globals] in Hrun.
  rewrite Hid in Hrun. unfold asked in *.
  rewrite <- ?app_assoc in Hposted. cbn [app] in Hposted.
  rewrite <- ?app_assoc in Hrun. cbn [app] in Hrun. rewrite Hposted in Hrun.
  assert (Hem : emitted (handle_updated_modal_submission w body view) p =
            (received token user_id
               ++ [starting w token;
                   job_start w token body trigger_id user_id user_name])
              ++ [Log INFO ("Build started successfully: " +:+ fmt build_id);
                  told user_id (running_text token build_id)]
              ++ failure_notice user_id e).
  { apply emitted_app. rewrite Hrun. cbn [trace snd]. by rewrite <- !app_assoc. }
  split; [done |]. rewrite Hem. reflexivity.
Qed.

(** X16. A submission without its sender reaches nobody and starts
    nothing; one without its token starts nothing and is reported to the
    sender. *)
Theorem incomplete_submission_starts_nothing (body view : json) (p : proc heap) :
  (forall e, sender_id body = Raise e ->
     count is_delivery (emitted (handle_updated_modal_submission w body view) p) = 0 /\
     count is_job_trigger (emitted (handle_updated_modal_submission w body view) p) = 0) /\
  (forall e user_id,
     py_getitem view "private_metadata" = Raise e ->
     sender_id body = Return user_id ->
     emitted (handle_updated_modal_submission w body view) p =
       [Ack AckEmpty; Metric "FinalModalSubmitted"] ++ failure_notice user_id e).
Proof.
  split.
  - intros e Hsender.
    assert (Hrun : exists evs,
               handle_updated_modal_submission w body view p =
                 (Return tt, Proc (trace p ++ evs) (globals p)) /\
               count is_delivery evs = 0 /\ count is_job_trigger evs = 0).
    { unfold handle_updated_modal_submission, sender_id in *. run.
      destruct (py_getitem view "private_metadata") as [token | e0]; cbn;
        destruct (py_getitem body "user") as [user | e1]; cbn;
        rewrite ?Hsender; cbn; traces; eexists; by split. }
    destruct Hrun as (evs & Hrun & Hcounts).
    destruct (run_emitted _ _ _ _ _ Hrun) as [_ ->]. done.
  - intros e user_id Htoken (user & Huser & Hid)%sender_id_read.
    apply emitted_app.
    unfold handle_updated_modal_submission, post, failure_notice. unfold told. run.
    rewrite Htoken. cbn. rewrite Huser. cbn. rewrite Hid. cbn. traces.
    by case_oracle.
Qed.

Lemma py_getitem_raises (v : json) (k : string) (e : exn) :
  py_getitem v k = Raise e -> is_ClientError e = false.
Proof. unfold py_getitem. intros. repeat (case_match; simplify_eq/=); done. Qed.

Lemma py_get_raises (v : json) (k : string) (dflt : json) (e : exn) :
  py_get v k dflt = Raise e -> is_ClientError e = false.
Proof. unfold py_get. intros. repeat (case_match; simplify_eq/=); done. Qed.

(** X17. [execute_action] returns a build only from CodeBuild. If it
    returns [build_info], then CodeBuild was asked once, under the
    computed name, and answered with a response whose [build] is
    [build_info], and that build has an [id]. *)
Theorem returned_build_is_codebuilds (action_name body build_info : json)
    (p p' : proc heap) :
  execute_action w action_name body p = (Return build_info, p') ->
  exists trigger_id user_id user_name response build_id,
    sent_by body user_id user_name /\
    start_build w (trace p ++ [starting w action_name]) (project_name w action_name)
      (overrides (json_dumps body) trigger_id user_id user_name) = Return response /\
    py_getitem response "build" = Return build_info /\
    py_getitem build_info "id" = Return build_id /\
    emitted (execute_action w action_name body) p =
      [starting w action_name;
       job_start w action_name body trigger_id user_id user_name;
       Log INFO ("Build started successfully: " +:+ fmt build_id)].
Proof.
  intros Hrun.
  assert (Hem : forall evs, trace p' = trace p ++ evs ->
                            emitted (execute_action w action_name body) p = evs).
  { intros evs Htr. apply emitted_app. by rewrite Hrun. }
  unfold execute_action, starting, job_start in *. run.
  destruct (py_get body "trigger_id" (JStr "")) as [trigger_id | e0] eqn:Htrig;
    cbn in Hrun; [| by destruct (is_ClientError e0)].
  destruct (py_getitem body "user") as [user | e0] eqn:Huser;
    cbn in Hrun; [| by destruct (is_ClientError e0)].
  destruct (py_getitem user "id") as [user_id | e0] eqn:Hid;
    cbn in Hrun; [| by destruct (is_ClientError e0)].
  destruct (py_getitem user "name") as [user_name | e0] eqn:Hname;
    cbn in Hrun; [| by destruct (is_ClientError e0)].
  destruct (start_build w _ _ _) as [response | e0] eqn:Hstart;
    cbn in Hrun; [| by destruct (is_ClientError e0)].
  destruct (py_getitem response "build") as [info | e0] eqn:Hbuild;
    cbn in Hrun; [| by destruct (is_ClientError e0)].
  destruct (py_getitem info "id") as [build_id | e0] eqn:Hbid;
    cbn in Hrun; [| by destruct (is_ClientError e0)].
  simplify_eq.
  exists trigger_id, user_id, user_name, response, build_id.
  split; [by exists user |]. do 3 (split; [done |]).
  apply Hem. cbn [trace]. by traces.
Qed.

(** X18. Without the sender nothing is asked. If the request body does not
    carry [user.id] and [user.name], [execute_action] raises before any
    call to CodeBuild: all it has done is log its line
    [Starting CodeBuild project: <project name>]. The error is not a
    [ClientError], so [execute_action] neither logs nor counts it. *)
Theorem no_sender_no_job (action_name body : json) (p : proc heap) :
  (forall user_id user_name, ~ sent_by body user_id user_name) ->
  exists e,
    execute_action w action_name body p =
      (Raise e, Proc (trace p ++ [starting w action_name]) (globals p)) /\
    is_ClientError e = false.
Proof.
  intros Hnone. unfold execute_action, starting. run.
  destruct (py_get body "trigger_id" (JStr "")) as [trigger_id | e0] eqn:Htrig; cbn.
  2: { exists e0. rewrite (py_get_raises _ _ _ _ Htrig). by cbn. }
  destruct (py_getitem body "user") as [user | e0] eqn:Huser; cbn.
  2: { exists e0. rewrite (py_getitem_raises _ _ _ Huser). by cbn. }
  destruct (py_getitem user "id") as [user_id | e0] eqn:Hid; cbn.
  2: { exists e0. rewrite (py_getitem_raises _ _ _ Hid). by cbn. }
  destruct (py_getitem user "name") as [user_name | e0] eqn:Hname; cbn.
  2: { exists e0. rewrite (py_getitem_raises _ _ _ Hname). by cbn. }
  destruct (Hnone user_id user_name). by exists user.
Qed.

(** X19. A failed start goes up as it is, after one attempt. When
    CodeBuild raises [e], [execute_action] raises the same [e]; a
    [ClientError] is first logged with its traceback and counted as
    [CodeBuildStartError], any other error is not. *)
Theorem failed_start_is_raised_again (action_name body : json)
    (trigger_id user_id user_name : json) (e : exn) (p : proc heap) :
  sent_by body user_id user_name ->
  py_get body "trigger_id" (JStr "") = Return trigger_id ->
  start_build w (trace p ++ [starting w action_name]) (project_name w action_name)
    (overrides (json_dumps body) trigger_id user_id user_name) = Raise e ->
  (execute_action w action_name body p).1 = Raise e /\
  emitted (execute_action w action_name body) p =
    [starting w action_name;
     job_start w action_name body trigger_id user_id user_name]
      ++ (if is_ClientError e
          then [LogException ERROR ("Failed to start CodeBuild project: " +:+ str_exn e) e;
                Metric "CodeBuildStartError"]
          else []) /\
  count is_job_trigger (emitted (execute_action w action_name body) p) = 1.
Proof.
  intros Hsender Htrig Hstart.
  pose proof (SlackBotSpec.execute_action_run w action_name body trigger_id
                user_id user_name p Hsender Htrig) as Hrun.
  cbv zeta in Hrun. rewrite Hstart in Hrun.
  assert (Hem : emitted (execute_action w action_name body) p =
            [starting w action_name;
             job_start w action_name body trigger_id user_id user_name]
              ++ start_failure e).
  { apply emitted_app. rewrite Hrun. cbn [trace snd]. by rewrite <- app_assoc. }
  split; [by rewrite Hrun |]. split; [done |].
  rewrite Hem. unfold start_failure. by destruct (is_ClientError e).
Qed.

(** X20. The slash command, on every path. The handler returns; it
    acknowledges first and once, opens at most one form and starts no job;
    and if it writes to the user at all, the text is its one fixed
    message, whatever went wrong. *)
Theorem slash_command_failure_message_is_fixed (body : json) (p : proc heap) :
  let evs := emitted (handle_slash_command w body) p in
  (handle_slash_command w body p).1 = Return tt /\
  head evs = Some (Ack AckEmpty) /\
  count is_ack evs = 1 /\
  count is_form_opening evs <= 1 /\
  count is_job_trigger evs = 0 /\
  (forall channel thread_ts text mrkdwn,
     ChatPostMessage channel thread_ts text mrkdwn ∈ evs -> text = JStr sorry_text).
Proof.
  cbv zeta.
  assert (Hrun : exists evs,
             handle_slash_command w body p =
               (Return tt, Proc (trace p ++ evs) (globals p)) /\
             head evs = Some (Ack AckEmpty) /\
             count is_ack evs = 1 /\
             count is_form_opening evs <= 1 /\
             count is_job_trigger evs = 0 /\
             (forall channel thread_ts text mrkdwn,
                ChatPostMessage channel thread_ts text mrkdwn ∈ evs ->
                text = JStr sorry_text)).
  { unfold handle_slash_command, open_modal, post, sorry_text. run.
    repeat (case_match; simplify_eq/=);
      traces; eexists; (split; [reflexivity |]); cbn;
      (do 4 (split; [first [reflexivity | lia] |]));
      intros channel thread_ts text mrkdwn Hin;
      repeat (apply elem_of_cons in Hin as [Heq | Hin]; [by simplify_eq |]);
      by apply elem_of_nil in Hin. }
  destruct Hrun as (evs & Hrun & Hcounts).
  destruct (run_emitted _ _ _ _ _ Hrun) as [-> ->]. done.
Qed.

(** X21. [create_action_modal] returns only for a registered name whose
    template is a dict: then the result is the address of a new object,
    the form of that action, and nothing else has changed. For any other
    argument it raises. *)
Theorem form_only_for_registered_dict_template (action_name : json)
    (action_modal : addr) (p p' : proc heap) :
  create_action_modal w action_name p = (Return action_modal, p') ->
  exists name a template,
    action_name = JStr name /\
    dict_get name (action_data w) = Some a /\
    globals p !! a = Some (JObj template) /\
    action_modal = length (globals p) /\
    p' = Proc (trace p) (globals p ++ [action_form name template]).
Proof.
  unfold create_action_modal, py_copy, py_setitem, deref, alloc, py_lookup,
    action_form. run. intros Hrun.
  destruct action_name as [| | | | name | |]; try done.
  destruct (dict_get name (action_data w)) as [a |] eqn:Hname; [| done].
  cbn in Hrun. destruct (globals p !! a) as [obj |] eqn:Ha; [| done].
  cbn in Hrun. destruct obj as [| | | | | items | template]; try done;
    cbn in Hrun; rewrite heap_lookup_new in Hrun; cbn in Hrun; [done |].
  rewrite heap_insert_new, heap_lookup_new in Hrun. cbn in Hrun.
  rewrite heap_insert_new in Hrun. simplify_eq.
  exists name, a, template. by rewrite Ha.
Qed.

(** X22. Each selection gets a form of its own. Two calls for the same
    name return two different new objects with the same items; the second
    call leaves the first form, and the template, as they were. *)
Theorem each_call_makes_its_own_form (name : string) (a : addr)
    (template : dict json) (p : proc heap) :
  dict_get name (action_data w) = Some a ->
  globals p !! a = Some (JObj template) ->
  exists first second p1 p2,
    create_action_modal w (JStr name) p = (Return first, p1) /\
    create_action_modal w (JStr name) p1 = (Return second, p2) /\
    first <> second /\ first <> a /\ second <> a /\
    globals p2 !! first = Some (action_form name template) /\
    globals p2 !! second = Some (action_form name template) /\
    globals p2 !! a = Some (JObj template).
Proof.
  intros Hname Ha.
  assert (Hlt : a < length (globals p)) by by eapply lookup_lt_Some.
  assert (Hstep : forall q, globals q !! a = Some (JObj template) ->
            create_action_modal w (JStr name) q =
              (Return (length (globals q)),
               Proc (trace q) (globals q ++ [action_form name template]))).
  { intros q Hq.
    unfold create_action_modal, py_copy, py_setitem, deref, alloc, action_form.
    cbn. rewrite Hname. run. rewrite Hq. cbn.
    rewrite heap_lookup_new. cbn. rewrite heap_insert_new, heap_lookup_new. cbn.
    by rewrite heap_insert_new. }
  set (p1 := Proc (trace p) (globals p ++ [action_form name template])).
  assert (Ha1 : globals p1 !! a = Some (JObj template)) by by apply lookup_app_l_Some.
  exists (length (globals p)), (length (globals p1)), p1,
         (Proc (trace p1) (globals p1 ++ [action_form name template])).
  split; [by apply Hstep |]. split; [by apply Hstep |].
  subst p1. cbn [globals trace]. rewrite length_app. cbn [length].
  split; [lia |]. split; [lia |]. split; [lia |].
  split; [apply lookup_app_l_Some, heap_lookup_new |].
  split; [| by apply lookup_app_l_Some].
  replace (length (globals p) + 1) with (length (globals p ++ [action_form name template]))
    by (rewrite length_app; cbn; lia).
  apply heap_lookup_new.
Qed.

(** X23. The menu does not depend on the order of the registry. Two
    registries with the same names, loaded in whatever order, give the
    same options. *)
Theorem menu_ignores_registry_order (w' : world) :
  dict_keys (action_data w) ≡ₚ dict_keys (action_data w') ->
  menu_options w = menu_options w'.
Proof.
  intros Hsame. unfold menu_options, sorted. f_equal.
  apply (StronglySorted_unique String.le).
  - apply Sorted_StronglySorted; [apply _ | apply Sorted_merge_sort; apply _].
  - apply Sorted_StronglySorted; [apply _ | apply Sorted_merge_sort; apply _].
  - by rewrite !merge_sort_Permutation.
Qed.
End Handlers.

Import Scenario Cases.
#[local] Existing Instance demo_runtime.

Lemma dana_is_sender : sent_by dana (JStr "U1") (JStr "dana").
Proof.
  exists (JObj [("id", JStr "U1"); ("name", JStr "dana")]). repeat split; reflexivity.
Defined.

Lemma selection_shows_form_witness :
  handle_initial_modal_submission (codebuild_accepts [("deploy", 0)]) dana
    (selection_view "deploy") serving =
    (Return tt,
     Proc (trace serving ++ [Metric "InitialModalSubmitted";
                             Log INFO "Action selected: deploy";
                             Ack (AckUpdate (action_form "deploy" deploy_template));
                             Metric "ActionFormDisplayed"])
          (globals serving ++ [action_form "deploy" deploy_template])) /\
  py_getitem (action_form "deploy" deploy_template) "private_metadata"
    = Return (JStr "deploy") /\
  py_getitem (action_form "deploy" deploy_template) "callback_id"
    = Return (JStr "updated_modal").
Proof.
  apply (selection_shows_form_with_token (codebuild_accepts [("deploy", 0)]) dana
           (selection_view "deploy") "deploy" 0 deploy_template serving);
    reflexivity.
Defined.

Lemma dialog_witness :
  exists rest,
    emitted (handle_updated_modal_submission (codebuild_accepts [("deploy", 0)]) dana
               (action_form "deploy" deploy_template))
            (handle_initial_modal_submission (codebuild_accepts [("deploy", 0)]) dana
               (selection_view "deploy") serving).2
      = received (JStr "deploy") (JStr "U1")
          ++ starting (codebuild_accepts [("deploy", 0)]) (JStr "deploy")
          :: StartBuild "senora-deploy"
               (overrides (json_dumps dana) (JStr "T1") (JStr "U1") (JStr "dana"))
          :: rest.
Proof.
  apply (dialog_starts_the_selected_action (codebuild_accepts [("deploy", 0)])
           dana (selection_view "deploy") dana "deploy" 0 deploy_template
           (JStr "U1") (JStr "dana") (JStr "T1") slack_ok serving);
    first [reflexivity | exact dana_is_sender].
Defined.

Lemma no_job_without_receipt_witness :
  emitted (handle_updated_modal_submission slack_down dana (final_view "deploy")) fresh =
    received (JStr "deploy") (JStr "U1") ++ failure_notice (JStr "U1") rate_limited /\
  count is_job_trigger
    (emitted (handle_updated_modal_submission slack_down dana (final_view "deploy")) fresh)
    = 0.
Proof.
  apply (no_job_without_receipt slack_down dana (final_view "deploy")
           (JStr "deploy") (JStr "U1") rate_limited fresh); reflexivity.
Defined.

Lemma lost_confirmation_witness :
  emitted (handle_updated_modal_submission slack_drops_out dana (final_view "deploy"))
          fresh =
    (received (JStr "deploy") (JStr "U1")
       ++ [starting slack_drops_out (JStr "deploy");
           job_start slack_drops_out (JStr "deploy") dana
             (JStr "T1") (JStr "U1") (JStr "dana")])
      ++ [Log INFO "Build started successfully: peppa-deploy:1";
          told (JStr "U1") (running_text (JStr "deploy") (JStr "peppa-deploy:1"))]
      ++ failure_notice (JStr "U1") rate_limited /\
  count is_job_trigger
    (emitted (handle_updated_modal_submission slack_drops_out dana (final_view "deploy"))
             fresh) = 1.
Proof.
  apply (lost_confirmation_is_reported_as_failure slack_drops_out dana
           (final_view "deploy") (JStr "deploy") (JStr "U1") (JStr "dana") (JStr "T1")
           slack_ok
           (JObj [("build", JObj [("id", JStr "peppa-deploy:1")])])
           (JObj [("id", JStr "peppa-deploy:1")]) (JStr "peppa-deploy:1")
           rate_limited fresh);
    first [reflexivity | exact dana_is_sender].
Defined.

Lemma incomplete_submission_witness :
  count is_delivery
    (emitted (handle_updated_modal_submission (codebuild_accepts []) anonymous
                (final_view "deploy")) fresh) = 0 /\
  count is_job_trigger
    (emitted (handle_updated_modal_submission (codebuild_accepts []) anonymous
                (final_view "deploy")) fresh) = 0.
Proof.
  destruct (incomplete_submission_starts_nothing (codebuild_accepts []) anonymous
              (final_view "deploy") fresh) as [Hnobody _].
  exact (Hnobody (KeyError (JStr "user")) eq_refl).
Defined.

Lemma returned_build_witness :
  exists trigger_id user_id user_name response build_id,
    sent_by dana user_id user_name /\
    start_build (codebuild_accepts []) (trace fresh ++ [starting (codebuild_accepts [])
                                                          (JStr "deploy")])
      (project_name (codebuild_accepts []) (JStr "deploy"))
      (overrides (json_dumps dana) trigger_id user_id user_name) = Return response /\
    py_getitem response "build" = Return (JObj [("id", JStr "senora-deploy:1")]) /\
    py_getitem (JObj [("id", JStr "senora-deploy:1")]) "id" = Return build_id /\
    emitted (execute_action (codebuild_accepts []) (JStr "deploy") dana) fresh =
      [starting (codebuild_accepts []) (JStr "deploy");
       job_start (codebuild_accepts []) (JStr "deploy") dana trigger_id user_id user_name;
       Log INFO ("Build started successfully: " +:+ fmt build_id)].
Proof.
  apply (returned_build_is_codebuilds (codebuild_accepts []) (JStr "deploy") dana
           (JObj [("id", JStr "senora-deploy:1")]) fresh
           (execute_action (codebuild_accepts []) (JStr "deploy") dana fresh).2).
  reflexivity.
Defined.

Lemma no_sender_witness :
  exists e,
    execute_action (codebuild_accepts []) (JStr "deploy") anonymous fresh =
      (Raise e, Proc (trace fresh ++ [starting (codebuild_accepts []) (JStr "deploy")])
                     (globals fresh)) /\
    is_ClientError e = false.
Proof.
  apply (no_sender_no_job (codebuild_accepts []) (JStr "deploy") anonymous fresh).
  intros user_id user_name (user & Huser & _). discriminate Huser.
Defined.

Lemma failed_start_witness :
  (execute_action (codebuild_rejects quota) (JStr "deploy") dana fresh).1
    = Raise (ClientError quota) /\
  emitted (execute_action (codebuild_rejects quota) (JStr "deploy") dana) fresh =
    [starting (codebuild_rejects quota) (JStr "deploy");
     job_start (codebuild_rejects quota) (JStr "deploy") dana
       (JStr "T1") (JStr "U1") (JStr "dana")]
      ++ [LogException ERROR ("Failed to start CodeBuild project: " +:+ quota)
            (ClientError quota);
          Metric "CodeBuildStartError"] /\
  count is_job_trigger
    (emitted (execute_action (codebuild_rejects quota) (JStr "deploy") dana) fresh) = 1.
Proof.
  apply (failed_start_is_raised_again (codebuild_rejects quota) (JStr "deploy") dana
           (JStr "T1") (JStr "U1") (JStr "dana") (ClientError quota) fresh);
    first [reflexivity | exact dana_is_sender].
Defined.

Lemma slash_command_witness :
  (handle_slash_command slack_down slash fresh).1 = Return tt /\
  ChatPostMessage (JStr "U1") None (JStr sorry_text) false
    ∈ emitted (handle_slash_command slack_down slash) fresh /\
  count is_job_trigger (emitted (handle_slash_command slack_down slash) fresh) = 0.
Proof.
  destruct (slash_command_failure_message_is_fixed slack_down slash fresh)
    as (Hreturns & _ & _ & _ & Hnojob & _).
  split; [exact Hreturns |]. split; [| exact Hnojob].
  vm_compute. repeat first [apply list_elem_of_here | apply list_elem_of_further].
Defined.

Lemma form_only_for_registered_witness :
  exists name a template,
    JStr "deploy" = JStr name /\
    dict_get name (action_data (codebuild_accepts [("deploy", 0)])) = Some a /\
    globals serving !! a = Some (JObj template) /\
    1 = length (globals serving) /\
    (create_action_modal (codebuild_accepts [("deploy", 0)]) (JStr "deploy") serving).2
      = Proc (trace serving) (globals serving ++ [action_form name template]).
Proof.
  apply (form_only_for_registered_dict_template (codebuild_accepts [("deploy", 0)])
           (JStr "deploy") 1 serving). reflexivity.
Defined.

Lemma each_call_witness :
  exists first second p1 p2,
    create_action_modal (codebuild_accepts [("deploy", 0)]) (JStr "deploy") serving
      = (Return first, p1) /\
    create_action_modal (codebuild_accepts [("deploy", 0)]) (JStr "deploy") p1
      = (Return second, p2) /\
    first <> second /\ first <> 0 /\ second <> 0 /\
    globals p2 !! first = Some (action_form "deploy" deploy_template) /\
    globals p2 !! second = Some (action_form "deploy" deploy_template) /\
    globals p2 !! 0 = Some (JObj deploy_template).
Proof.
  apply (each_call_makes_its_own_form (codebuild_accepts [("deploy", 0)])
           "deploy" 0 deploy_template serving); reflexivity.
Defined.

Lemma menu_order_witness :
  menu_options (codebuild_accepts [("restart", 0); ("deploy", 1)]) =
  menu_options (codebuild_accepts [("deploy", 0); ("restart", 1)]).
Proof.
  apply (menu_ignores_registry_order
           (codebuild_accepts [("restart", 0); ("deploy", 1)])
           (codebuild_accepts [("deploy", 0); ("restart", 1)])).
  apply perm_swap.
Defined.
End SlackBotMore.

(** ** The credentials *)

Module SlackCredentialsMore.
Import SlackCredentials.

Section Secret.
Context {rt : Runtime} (w : world).

Lemma missing_of_dict (d : dict json) (keys : list string) :
  missing keys (JObj d) = Return (List.filter (fun key => negb (dict_has key d)) keys).
Proof.
  induction keys as [| key keys IH]; [done |]. cbn [missing py_in List.filter].
  rewrite IH. by destruct (dict_has key d).
Qed.

Lemma missing_none (keys : list string) (secret_data : json) :
  missing keys secret_data = Return [] ->
  forall key, key ∈ keys -> py_in key secret_data = Return true.
Proof.
  induction keys as [| k keys IH]; intros Hmiss key Hin.
  - by apply elem_of_nil in Hin.
  - cbn [missing] in Hmiss.
    destruct (py_in k secret_data) as [found |] eqn:Hk; [| done].
    destruct (missing keys secret_data) as [rest |]; [| done].
    destruct found; [| done]. simplify_eq.
    apply elem_of_cons in Hin as [-> | Hin]; [done | by apply IH].
Qed.

#[local] Arguments missing : simpl never.

(** X24. Credentials are returned only whole. If [get_slack_credentials]
    returns [secret_data], then [SLACK_SECRET_TOKEN] was set, Secrets
    Manager was asked once, and both [slack_signing_secret] and
    [slack_bot_token] are in [secret_data]. *)
Theorem returned_credentials_are_complete (secret_data : json) (p p' : proc heap) :
  get_slack_credentials w p = (Return secret_data, p') ->
  unset (env_SLACK_SECRET_TOKEN w) = false /\
  py_in "slack_signing_secret" secret_data = Return true /\
  py_in "slack_bot_token" secret_data = Return true /\
  emitted (get_slack_credentials w) p =
    [GetSecretValue (Some (default "" (env_SLACK_SECRET_TOKEN w)));
     Log INFO "Successfully retrieved Slack credentials"] /\
  globals p' = globals p.
Proof.
  intros Hrun.
  assert (Hem : forall evs, trace p' = trace p ++ evs ->
                            emitted (get_slack_credentials w) p = evs).
  { intros evs Htr. apply emitted_app. by rewrite Hrun. }
  unfold get_slack_credentials in Hrun. run.
  destruct (unset (env_SLACK_SECRET_TOKEN w)); cbn in Hrun; [done |].
  destruct (get_secret_value w _ _) as [response | e0];
    cbn in Hrun; [| by destruct (is_ClientError e0)].
  destruct (py_getitem response "SecretString") as [secret_string | e0];
    cbn in Hrun; [| by destruct (is_ClientError e0)].
  destruct (py_json_loads secret_string) as [data | e0];
    cbn in Hrun; [| by destruct (is_ClientError e0)].
  destruct (missing required_keys data) as [[| key keys] | e0] eqn:Hmiss;
    cbn in Hrun; [| done | by destruct (is_ClientError e0)].
  simplify_eq. split; [done |].
  pose proof (missing_none _ _ Hmiss) as Hall.
  split; [apply Hall; listed |]. split; [apply Hall; listed |].
  split; [| done]. apply Hem. cbn [trace]. by traces.
Qed.

(** X25. Without a secret name nothing is fetched. If
    [SLACK_SECRET_TOKEN] is unset or empty, [get_slack_credentials] logs
    that and raises, and Secrets Manager is not called. *)
Theorem unset_secret_name_is_refused (p : proc heap) :
  unset (env_SLACK_SECRET_TOKEN w) = true ->
  get_slack_credentials w p =
    (Raise (Exception "SLACK_SECRET_TOKEN environment variable is required"),
     Proc (trace p ++ [Log ERROR "SLACK_SECRET_TOKEN environment variable not set"])
          (globals p)) /\
  count is_secret_fetch (emitted (get_slack_credentials w) p) = 0.
Proof.
  intros Hunset.
  assert (Hrun : get_slack_credentials w p =
    (Raise (Exception "SLACK_SECRET_TOKEN environment variable is required"),
     Proc (trace p ++ [Log ERROR "SLACK_SECRET_TOKEN environment variable not set"])
          (globals p))).
  { unfold get_slack_credentials. rewrite Hunset. by run. }
  split; [done |]. erewrite emitted_app; [| by rewrite Hrun]. reflexivity.
Qed.

(** X26. A secret that lacks a key is refused by name. When the secret is
    an object without [slack_signing_secret] or without [slack_bot_token],
    [get_slack_credentials] logs the missing keys and raises with their
    list; this is not counted as a [SecretRetrievalError]. When Secrets
    Manager itself raises a [ClientError], that error is logged, counted
    and raised again. *)
Theorem incomplete_secret_is_refused (p : proc heap) :
  unset (env_SLACK_SECRET_TOKEN w) = false ->
  let secret_name := default "" (env_SLACK_SECRET_TOKEN w) in
  (forall response secret_string d,
     get_secret_value w (trace p) secret_name = Return response ->
     py_getitem response "SecretString" = Return secret_string ->
     py_json_loads secret_string = Return (JObj d) ->
     dict_has "slack_signing_secret" d && dict_has "slack_bot_token" d = false ->
     let lacking :=
       py_repr (JArr (JStr <$> List.filter (fun key => negb (dict_has key d))
                                           required_keys)) in
     get_slack_credentials w p =
       (Raise (Exception ("Secret missing keys: " +:+ lacking)),
        Proc (trace p ++ [GetSecretValue (Some secret_name);
                          Log ERROR ("Missing required keys in secret: " +:+ lacking)])
             (globals p))) /\
  (forall msg,
     get_secret_value w (trace p) secret_name = Raise (ClientError msg) ->
     get_slack_credentials w p =
       (Raise (ClientError msg),
        Proc (trace p ++ [GetSecretValue (Some secret_name);
                          Log ERROR ("Failed to retrieve secret: " +:+ msg);
                          Metric "SecretRetrievalError"])
             (globals p))).
Proof.
  intros Hset secret_name. split.
  - intros response secret_string d Hfetch Hstring Hloads Hlack lacking.
    unfold get_slack_credentials. rewrite Hset. fold secret_name. run.
    rewrite Hfetch. cbn. rewrite Hstring. cbn. rewrite Hloads. cbn.
    rewrite missing_of_dict. fold lacking. subst lacking. unfold required_keys.
    cbn [List.filter].
    destruct (dict_has "slack_signing_secret" d), (dict_has "slack_bot_token" d);
      try done; cbn; by traces.
  - intros msg Hfetch.
    unfold get_slack_credentials. rewrite Hset. fold secret_name. run.
    rewrite Hfetch. cbn. by traces.
Qed.
End Secret.

Import Scenario Cases.
#[local] Existing Instance vault_runtime.

Lemma returned_credentials_witness :
  unset (Some "slack/bot") = false /\
  py_in "slack_signing_secret" (JObj whole_secret) = Return true /\
  py_in "slack_bot_token" (JObj whole_secret) = Return true /\
  emitted (get_slack_credentials (vault (Some "slack/bot") "<whole secret>")) fresh =
    [GetSecretValue (Some "slack/bot");
     Log INFO "Successfully retrieved Slack credentials"] /\
  globals (get_slack_credentials (vault (Some "slack/bot") "<whole secret>") fresh).2
    = globals fresh.
Proof.
  apply (returned_credentials_are_complete (vault (Some "slack/bot") "<whole secret>")
           (JObj whole_secret) fresh
           (get_slack_credentials (vault (Some "slack/bot") "<whole secret>") fresh).2).
  reflexivity.
Defined.

Lemma unset_secret_name_witness :
  get_slack_credentials (vault (Some "") "<whole secret>") fresh =
    (Raise (Exception "SLACK_SECRET_TOKEN environment variable is required"),
     Proc (trace fresh ++ [Log ERROR "SLACK_SECRET_TOKEN environment variable not set"])
          (globals fresh)) /\
  count is_secret_fetch
    (emitted (get_slack_credentials (vault (Some "") "<whole secret>")) fresh) = 0.
Proof.
  apply (unset_secret_name_is_refused (vault (Some "") "<whole secret>") fresh).
  reflexivity.
Defined.

Lemma incomplete_secret_witness :
  get_slack_credentials (vault (Some "slack/bot") "<token only>") fresh =
    (Raise (Exception ("Secret missing keys: "
                         +:+ py_repr (JArr [JStr "slack_signing_secret"]))),
     Proc (trace fresh ++ [GetSecretValue (Some "slack/bot");
                           Log ERROR ("Missing required keys in secret: "
                                        +:+ py_repr (JArr [JStr "slack_signing_secret"]))])
          (globals fresh)) /\
  (get_slack_credentials vault_denies fresh).1 = Raise (ClientError access_denied).
Proof.
  destruct (incomplete_secret_is_refused (vault (Some "slack/bot") "<token only>")
              fresh eq_refl) as [Hlacking _].
  destruct (incomplete_secret_is_refused vault_denies fresh eq_refl) as [_ Hdenied].
  split.
  - exact (Hlacking (JObj [("SecretString", JStr "<token only>")]) (JStr "<token only>")
             [("slack_bot_token", JStr "xoxb-1")] eq_refl eq_refl eq_refl eq_refl).
  - exact (f_equal fst (Hdenied access_denied eq_refl)).
Defined.
End SlackCredentialsMore.
